(** * The EMX (OS/2) compiler driver of setuptools' distutils

    A shallow embedding of [setuptools/_distutils/compilers/C/emx.py]
    (class [Compiler]) and the properties its specification states.

    Reading conventions.
    - A Python [str] is the list of its code points, so that [ord] and
      slicing are what they are in Python.
    - The module is Python 3 code (f-strings, zero-argument [super()]).
      A global name is looked up in the module's own namespace and then in
      the builtins; a name bound in neither raises [NameError] when the
      statement that mentions it runs.
    - The guard of the definition-file block of [link] (lines 103-104) is
      printed with one parenthesis left open.  It is read as the conjunction
      of its two operands, [export_symbols is not None] and
      [target_desc != self.EXECUTABLE]; both ways of balancing the
      parentheses give that condition.
    - Whatever lives outside the module (the platform's [os.path], the base
      class, the process environment, the spawned tools and the file system)
      is a parameter. *)

From Stdlib Require Import NArith String Ascii Lia.
From stdpp Require Import base numbers list strings.

Open Scope N_scope.

(** ** Python values *)

Module Py.

(** A string is its sequence of code points. *)
Definition str := list N.

(** The string written by an ASCII literal of the source. *)
Definition lit (s : string) : str :=
  map N_of_ascii (list_ascii_of_string s).

Definition ord (c : N) : N := c.

(** The double quote, [chr(34)]. *)
Definition dquote : str := [34].

(** [str(n)] for a non-negative integer: its decimal digits. *)
Fixpoint digits (fuel : nat) (n : N) (acc : str) : str :=
  match fuel with
  | O => acc
  | S fuel' =>
      let acc' := (48 + n mod 10) :: acc in
      if n / 10 =? 0 then acc' else digits fuel' (n / 10) acc'
  end.

Definition str_of_int (n : N) : str :=
  digits (S (N.to_nat (N.log2 n))) n [].

(** [s.split(sep)] for a one-character separator: never an empty list. *)
Fixpoint split (sep : N) (s : str) : list str :=
  match s with
  | [] => [[]]
  | c :: s' =>
      if c =? sep then [] :: split sep s'
      else match split sep s' with
           | [] => [[c]]
           | w :: ws => (c :: w) :: ws
           end
  end.

(** [template % args], for templates that only use [%s] on strings. *)
Fixpoint percent (template : str) (args : list str) : str :=
  match template with
  | 37 :: 115 :: rest =>
      match args with
      | a :: args' => a ++ percent rest args'
      | [] => 37 :: 115 :: percent rest []
      end
  | c :: rest => c :: percent rest args
  | [] => []
  end.

(** [not x] for a value that is [None] or a string. *)
Definition falsy (x : option str) : bool :=
  match x with
  | None => true
  | Some [] => true
  | Some (_ :: _) => false
  end.

(** Exceptions.  [OSError] carries the condition that caused it, so that
    [FileNotFoundError] is [OSError ENOENT], [PermissionError] is
    [OSError EACCES] and so on: all of them are instances of [OSError]. *)
Inductive errno := ENOENT | EACCES | EISDIR | EIO.

Inductive exn :=
| NameError (name : string)
| IndexError
| TypeError
| KeyError (key : str)
| OSError (e : errno)
| DistutilsExecError (msg : str)
| CompileError (msg : str)
| UnknownFileError (msg : str)
| KeyboardInterrupt.

Definition isinstance_OSError (e : exn) : bool :=
  match e with OSError _ => true | _ => false end.

Inductive result (A : Type) :=
| OK (a : A)
| Raise (e : exn).
Arguments OK {A} a.
Arguments Raise {A} e.

Definition rbind {A B} (r : result A) (k : A -> result B) : result B :=
  match r with
  | OK a => k a
  | Raise e => Raise e
  end.

(** [reduce(f, seq)] without an initial value, as [functools.reduce]
    defines it. *)
Definition functools_reduce {A} (f : A -> A -> A) (l : list A) : result A :=
  match l with
  | [] => Raise TypeError
  | x :: l' => OK (fold_left f l' x)
  end.

End Py.
Import Py.

Arguments lit : simpl never.
Arguments percent : simpl never.
Arguments str_of_int : simpl never.

Declare Scope py_scope.
Delimit Scope py_scope with py.
Notation "x <- r ;; k" := (rbind r (fun x => k))
  (at level 100, r at next level, right associativity) : py_scope.
Notation "r ;; k" := (rbind r (fun _ => k))
  (at level 100, right associativity) : py_scope.

(** ** Name resolution in the module *)

(** The names bound at the top level of [emx.py]: its imports (lines 7-27)
    and its own definitions. *)
Definition module_globals : list string :=
  [ "copy"; "os"; "pathlib"; "shlex"; "sys"; "warnings"; "check_output";
    "datetime"; "DistutilsExecError"; "DistutilsPlatformError"; "write_file";
    "get_config_vars"; "LooseVersion"; "suppress_known_deprecation"; "unix";
    "CompileError"; "Error"; "Compiler"; "CONFIG_H_OK"; "CONFIG_H_NOTOK";
    "CONFIG_H_UNCERTAIN"; "check_config_h" ]%string.

(** The Python 3 builtins the methods below mention.  Python 3 has no
    builtin [reduce] (it moved to [functools]). *)
Definition builtins : list string :=
  [ "len"; "str"; "map"; "ord"; "super"; "OSError"; "KeyError" ]%string.

Definition load_global (name : string) : result unit :=
  if bool_decide (name ∈ module_globals ++ builtins) then OK tt
  else Raise (NameError name).

(** ** The platform's [os.path] *)

Record os_path := OsPath {
  basename : str -> str;
  dirname : str -> str;
  splitext : str -> str * str;
  splitdrive : str -> str * str;
  isabs : str -> bool;
  join : str -> str -> str
}.

(** A sample platform, after [posixpath]; it serves the concrete runs. *)
Module posixpath.

Definition sep : N := 47.
Definition extsep : N := 46.

(** The part of [p] after its last separator, and what precedes it
    (separator included). *)
Fixpoint rsplit_sep (p : str) : str * str :=
  match p with
  | [] => ([], [])
  | c :: p' =>
      let (head, tail) := rsplit_sep p' in
      if bool_decide (sep ∈ p') then (c :: head, tail)
      else if c =? sep then ([c], p')
      else ([], c :: p')
  end.

Fixpoint rstrip_sep (p : str) : str :=
  match p with
  | [] => []
  | c :: p' =>
      match rstrip_sep p' with
      | [] => if c =? sep then [] else [c]
      | r => c :: r
      end
  end.

Definition basename (p : str) : str := snd (rsplit_sep p).

Definition dirname (p : str) : str :=
  let head := fst (rsplit_sep p) in
  if forallb (N.eqb sep) head then head else rstrip_sep head.

(** Splits a file name at its last dot, unless only dots precede it. *)
Fixpoint split_last_dot (name : str) : option (str * str) :=
  match name with
  | [] => None
  | c :: name' =>
      match split_last_dot name' with
      | Some (root, ext) => Some (c :: root, ext)
      | None => if c =? extsep then Some ([], name) else None
      end
  end.

Definition splitext (p : str) : str * str :=
  let (head, tail) := rsplit_sep p in
  match split_last_dot tail with
  | Some (root, ext) =>
      if forallb (N.eqb extsep) root then (p, []) else (head ++ root, ext)
  | None => (p, [])
  end.

Definition splitdrive (p : str) : str * str := ([], p).

Definition isabs (p : str) : bool :=
  match p with
  | c :: _ => c =? sep
  | [] => false
  end.

Definition join (a b : str) : str :=
  if isabs b then b
  else match a with
       | [] => b
       | _ => if forallb (N.eqb sep) (drop (pred (length a)) a)
              then a ++ b else a ++ sep :: b
       end.

Definition path : os_path :=
  OsPath basename dirname splitext splitdrive isabs join.

End posixpath.

(** ** The compiler object *)

(** What an instance inherits from the base classes or gets at
    construction, as far as the methods below read it. *)
Record Compiler := {
  compiler_so : list str;
  dll_libraries : list str;
  version : option str;
  src_extensions : list str
}.

Definition _rc_extensions : list str := [lit ".rc"; lit ".RC"].
Definition obj_extension : str := lit ".o".
Definition res_extension : str := lit ".res".

Section Pure.

Context (P : os_path).
Local Open Scope py_scope.

(** *** [object_filenames] (lines 177-198) *)

Definition object_filename (self : Compiler) (strip_dir : bool)
    (output_dir : str) (src_name : str) : result str :=
  let (base, ext) := P.(splitext) src_name in
  let base := snd (P.(splitdrive) base) in
  let base := drop (if P.(isabs) base then 1%nat else 0%nat) base in
  (if bool_decide (ext ∈ self.(src_extensions) ++ _rc_extensions)
   then OK tt
   else (load_global "UnknownFileError" ;;
         Raise (UnknownFileError
                  (percent (lit "unknown file type '%s' (from '%s')")
                     [ext; src_name])))) ;;
  let base := if strip_dir then P.(basename) base else base in
  if bool_decide (ext ∈ _rc_extensions)
  then OK (P.(join) output_dir (base ++ res_extension))
  else OK (P.(join) output_dir (base ++ obj_extension)).

Fixpoint object_filenames_loop (self : Compiler) (strip_dir : bool)
    (output_dir : str) (source_filenames : list str) (obj_names : list str)
    : result (list str) :=
  match source_filenames with
  | [] => OK obj_names
  | src_name :: rest =>
      name <- object_filename self strip_dir output_dir src_name ;;
      object_filenames_loop self strip_dir output_dir rest
        (obj_names ++ [name])
  end.

Definition object_filenames (self : Compiler)
    (source_filenames : list str) (strip_dir : bool)
    (output_dir : option str) : result (list str) :=
  let output_dir := match output_dir with None => [] | Some d => d end in
  object_filenames_loop self strip_dir output_dir source_filenames [].

(** *** [find_library_file] (lines 204-221) *)

Context (environ : str -> option str) (os_path_exists : str -> bool).

Definition environ_getitem (key : str) : result str :=
  match environ key with
  | Some v => OK v
  | None => Raise (KeyError key)
  end.

Definition try_names (lib : str) : list str :=
  [ lib ++ lit ".lib"; lib ++ lit ".a"; lib ++ lit "_dll.a";
    lit "lib" ++ lib ++ lit ".lib"; lit "lib" ++ lib ++ lit ".a";
    lit "lib" ++ lib ++ lit "_dll.a" ].

(** The [try]/[except KeyError] around the lookup of [LIBRARY_PATH]. *)
Definition emx_dirs : result (list str) :=
  match environ_getitem (lit "LIBRARY_PATH") with
  | OK v => OK (split 59 v)
  | Raise (KeyError _) => OK []
  | Raise e => Raise e
  end.

Fixpoint find_in_dir (dir : str) (names : list str) : option str :=
  match names with
  | [] => None
  | name :: names' =>
      let libfile := P.(join) dir name in
      if os_path_exists libfile then Some libfile
      else find_in_dir dir names'
  end.

Fixpoint find_in_dirs (dirs : list str) (names : list str) : option str :=
  match dirs with
  | [] => None
  | dir :: dirs' =>
      match find_in_dir dir names with
      | Some libfile => Some libfile
      | None => find_in_dirs dirs' names
      end
  end.

Definition find_library_file (dirs : list str) (lib : str) (debug : bool)
    : result (option str) :=
  let try_names := try_names lib in
  emx_dirs <- emx_dirs ;;
  OK (find_in_dirs (dirs ++ emx_dirs) try_names).

End Pure.

(** ** Effects: list objects and calls to the outside *)

Inductive target_desc := EXECUTABLE | SHARED_OBJECT | SHARED_LIBRARY.

Definition target_desc_eqb (a b : target_desc) : bool :=
  match a, b with
  | EXECUTABLE, EXECUTABLE
  | SHARED_OBJECT, SHARED_OBJECT
  | SHARED_LIBRARY, SHARED_LIBRARY => true
  | _, _ => false
  end.

(** The calls the methods make to code outside the module. *)
Inductive call :=
| spawn (cmd : list str)
| execute_write_file (filename : str) (contents : list str) (msg : str)
| super_link (target : target_desc) (objects : list str)
    (output_filename : str) (output_dir : option str) (libraries : list str)
    (library_dirs runtime_library_dirs : option (list str))
    (export_symbols : option (list str)) (debug : bool)
    (extra_preargs : list str) (extra_postargs : option (list str))
    (build_temp target_lang : option str)
| os_remove (path : str)
| os_symlink (src dst : str).

Definition is_write_file (c : call) : bool :=
  match c with execute_write_file _ _ _ => true | _ => false end.

(** A list object is a cell of the heap; a variable holds its address.
    The log keeps the outside calls made so far, oldest first. *)
Abbreviation addr := nat (only parsing).

Record state := State {
  heap : list (list str);
  log : list call
}.

Definition M (A : Type) : Type := state -> result A * state.

Module Eff.

Definition ret {A} (a : A) : M A := fun st => (OK a, st).

Definition raise {A} (e : exn) : M A := fun st => (Raise e, st).

Definition bind {A B} (m : M A) (k : A -> M B) : M B :=
  fun st =>
    match m st with
    | (OK a, st') => k a st'
    | (Raise e, st') => (Raise e, st')
    end.

(** [try: m except <handles>: handler] *)
Definition try_except {A} (m : M A) (handles : exn -> bool)
    (handler : exn -> M A) : M A :=
  fun st =>
    match m st with
    | (OK a, st') => (OK a, st')
    | (Raise e, st') =>
        if handles e then handler e st' else (Raise e, st')
    end.

Definition lift {A} (r : result A) : M A := fun st => (r, st).

(** [copy.copy(l)] of a list with the given content. *)
Definition copy_list (l : list str) : M addr :=
  fun st => (OK (length st.(heap)), State (st.(heap) ++ [l]) st.(log)).

Definition content (a : addr) : M (list str) :=
  fun st => (OK (default [] (st.(heap) !! a)), st).

(** [x or []] for an argument that is [None] or a list: the content of
    the list the expression evaluates to. *)
Definition or_empty (x : option addr) : M (list str) :=
  match x with
  | Some a => content a
  | None => ret []
  end.

Definition extend (a : addr) (l : list str) : M unit :=
  fun st =>
    (OK tt,
     State (<[a := default [] (st.(heap) !! a) ++ l]> st.(heap)) st.(log)).

Definition append (a : addr) (x : str) : M unit := extend a [x].

(** [l[i]] *)
Definition getitem (a : addr) (i : nat) : M str :=
  fun st =>
    match default [] (st.(heap) !! a) !! i with
    | Some x => (OK x, st)
    | None => (Raise IndexError, st)
    end.

End Eff.
Import Eff.

Declare Scope eff_scope.
Delimit Scope eff_scope with eff.
Notation "x <- m ;; k" := (bind m (fun x => k))
  (at level 100, m at next level, right associativity) : eff_scope.
Notation "m ;; k" := (bind m (fun _ => k))
  (at level 100, right associativity) : eff_scope.

(** The calls made by running [m] from [st]. *)
Definition trace {A} (m : M A) (st : state) : list call :=
  drop (length st.(log)) (snd (m st)).(log).

Definition outcome {A} (m : M A) (st : state) : result A := fst (m st).

Section Driver.

Context (P : os_path).

(** What the outside answers to a call, given the calls made before:
    [None] when the call returns, [Some e] when it raises [e]. *)
Context (reply : list call -> call -> option exn).

(** The process environment, the clock and the host name. *)
Context (getenv : str -> option str).
Context (now_strftime : str -> str).
Context (uname_nodename : str).

Local Open Scope eff_scope.

Definition perform (c : call) : M unit :=
  fun st =>
    let st' := State st.(heap) (st.(log) ++ [c]) in
    match reply st.(log) c with
    | None => (OK tt, st')
    | Some e => (Raise e, st')
    end.

(** *** [_compile] (lines 60-73) *)

Definition is_DistutilsExecError (e : exn) : bool :=
  match e with DistutilsExecError _ => true | _ => false end.

Definition reraise_CompileError (e : exn) : M unit :=
  match e with
  | DistutilsExecError msg => raise (CompileError msg)
  | _ => raise e
  end.

Definition _compile (self : Compiler) (obj src ext : str)
    (cc_args extra_postargs pp_opts : list str) : M unit :=
  if bool_decide (ext = lit ".rc") then
    try_except (perform (spawn [lit "rc"; lit "-r"; src]))
      is_DistutilsExecError reraise_CompileError
  else
    try_except
      (perform (spawn (self.(compiler_so) ++ cc_args
                         ++ [src; lit "-o"; obj] ++ extra_postargs)))
      is_DistutilsExecError reraise_CompileError.

(** *** [link] (lines 75-173) *)

(** Line 93, evaluated left to right: the slice of the basename, then
    the lookup of the global [reduce], then the sum of the code points. *)
Definition hashed_name (output_filename : str) : result str :=
  let prefix := take 3 (P.(basename) output_filename) in
  rbind (load_global "reduce") (fun _ =>
  rbind (functools_reduce N.add (map ord output_filename)) (fun total =>
  OK (prefix ++ str_of_int (total mod 65536)))).

(** What line 93 computes once the lookup of [reduce] has given
    [functools.reduce]. *)
Definition hashed_name_resolved (output_filename : str) : result str :=
  let prefix := take 3 (P.(basename) output_filename) in
  rbind (functools_reduce N.add (map ord output_filename)) (fun total =>
  OK (prefix ++ str_of_int (total mod 65536))).

(** Lines 88-95: the name, the extension and the 8 character name. *)
Definition short_name (output_filename : str) : result (str * str * str) :=
  let (dll_name, dll_extension) :=
    P.(splitext) (P.(basename) output_filename) in
  rbind (if (8 <? length dll_name)%nat then hashed_name output_filename
         else OK dll_name) (fun dll_name8 =>
  OK (dll_name, dll_extension, dll_name8)).

(** Lines 130-139: the lines of the definition file. *)
Definition def_file_contents (vendor version date_time host : str)
    (dll_name8 dll_name : str) (export_symbols : list str) : list str :=
  let contents :=
    [ percent (lit "LIBRARY %s INITINSTANCE TERMINSTANCE") [dll_name8];
      percent (lit "DESCRIPTION " ++ dquote
                 ++ lit "@#%s:%s#@##1## %s     %s::::0::@@%s" ++ dquote)
        [vendor; version; date_time; host; dll_name];
      lit "DATA MULTIPLE NONSHARED";
      lit "EXPORTS" ] in
  fold_left
    (fun contents sym =>
       contents ++ [percent (lit "  " ++ dquote ++ lit "_%s" ++ dquote) [sym]])
    export_symbols contents.

(** Lines 103-146: the definition-file block, on the copy [objects]. *)
Definition write_def_file (self : Compiler) (target : target_desc)
    (export_symbols : option (list str)) (dll_name dll_name8 : str)
    (objects : addr) : M unit :=
  match export_symbols with
  | Some symbols =>
      if negb (target_desc_eqb target EXECUTABLE) then
        first_object <- getitem objects 0 ;;
        let temp_dir := P.(dirname) first_object in
        let def_file := P.(join) temp_dir (dll_name ++ lit ".def") in
        let vendor := getenv (lit "VENDOR") in
        let vendor :=
          if falsy vendor then lit "python build system"
          else default [] vendor in
        let date_time := now_strftime (lit "%d %b %Y %H:%M:%S") in
        let version := self.(version) in
        let version :=
          if falsy version then lit "0.0" else default [] version in
        let host := uname_nodename in
        let contents :=
          def_file_contents vendor version date_time host
            dll_name8 dll_name symbols in
        perform (execute_write_file def_file contents
                   (percent (lit "writing %s") [def_file])) ;;
        append objects def_file
      else ret tt
  | None => ret tt
  end.

(** Lines 167-173: the long name as a link to the 8 character file. *)
Definition alias_long_name (dll_name dll_name8 dll_extension : str)
    (output_filename : str) : M unit :=
  if (8 <? length dll_name)%nat then
    try_except (perform (os_remove output_filename))
      isinstance_OSError (fun _ => ret tt) ;;
    perform (os_symlink (dll_name8 ++ dll_extension) output_filename)
  else ret tt.

(** Lines 80-86: the working copies, in the order of the source, and
    the implicit libraries added to the copy. *)
Definition prepare (self : Compiler)
    (objects libraries extra_preargs : option addr)
    : M (addr * addr * addr) :=
  extra_preargs <- (l <- or_empty extra_preargs ;; copy_list l) ;;
  libraries <- (l <- or_empty libraries ;; copy_list l) ;;
  objects <- (l <- or_empty objects ;; copy_list l) ;;
  extend libraries self.(dll_libraries) ;;
  ret (extra_preargs, libraries, objects).

Definition link (self : Compiler) (target : target_desc)
    (objects : option addr) (output_filename : str)
    (output_dir : option str) (libraries : option addr)
    (library_dirs runtime_library_dirs : option (list str))
    (export_symbols : option (list str)) (debug : bool)
    (extra_preargs : option addr) (extra_postargs : option (list str))
    (build_temp target_lang : option str) : M unit :=
  copies <- prepare self objects libraries extra_preargs ;;
  let '(extra_preargs, libraries, objects) := copies in
  names <- lift (short_name output_filename) ;;
  let '(dll_name, dll_extension, dll_name8) := names in
  let dll_namefull :=
    P.(join) (P.(dirname) output_filename) (dll_name8 ++ dll_extension) in
  write_def_file self target export_symbols dll_name dll_name8 objects ;;
  (if negb debug then append extra_preargs (lit "-s") else ret tt) ;;
  objects_now <- content objects ;;
  libraries_now <- content libraries ;;
  extra_preargs_now <- content extra_preargs ;;
  perform (super_link target objects_now dll_namefull output_dir
             libraries_now library_dirs runtime_library_dirs None debug
             extra_preargs_now extra_postargs build_temp target_lang) ;;
  alias_long_name dll_name dll_name8 dll_extension output_filename.

End Driver.

(** ** Further class attributes (lines 34-43) *)

Definition compiler_type : str := lit "emx".
Definition static_lib_extension : str := lit ".a".
Definition shared_lib_extension : str := lit "_dll.a".
Definition dylib_lib_extension : str := lit ".dll".
Definition static_lib_format : str := lit "lib%s%s".
Definition shared_lib_format : str := lit "lib%s%s".
Definition dylib_lib_format : str := lit "%s%s".
Definition exe_extension : str := lit ".exe".

(** ** More of Python's strings *)

(** [hay.startswith(needle)] *)
Fixpoint startswith (needle hay : str) : bool :=
  match needle, hay with
  | [], _ => true
  | c :: needle', d :: hay' => (c =? d) && startswith needle' hay'
  | _ :: _, [] => false
  end.

(** [needle in hay] *)
Fixpoint str_contains (needle hay : str) : bool :=
  startswith needle hay
  || match hay with
     | [] => false
     | _ :: hay' => str_contains needle hay'
     end.

(** [sep.join(pieces)] for a one-character separator. *)
Fixpoint str_join (sep : N) (pieces : list str) : str :=
  match pieces with
  | [] => []
  | [piece] => piece
  | piece :: rest => piece ++ sep :: str_join sep rest
  end.

(** ** The probe of the configuration header and the constructor *)

Definition CONFIG_H_OK : str := lit "ok".
Definition CONFIG_H_NOTOK : str := lit "not ok".
Definition CONFIG_H_UNCERTAIN : str := lit "uncertain".

(** What the constructor asks of the base class and of [sysconfig]. *)
Inductive init_call :=
| super_init (verbose dry_run force : bool)
| debug_print (msg : str)
| warn (msg : str)
| get_config_vars (names : list str).

Definition is_warn (c : init_call) : bool :=
  match c with warn _ => true | _ => false end.

Section Probe.

(** The interpreter's version banner, the path [sysconfig] gives for the
    configuration header, what reading a file gives, the text of an
    [OSError] and Python's [repr] of a string. *)
Context (sys_version : str).
Context (get_config_h_filename : str).
Context (read_text : str -> result str).
Context (strerror : errno -> str).
Context (repr : str -> str).

(** [check_config_h] (lines 234-276); the f-strings are written as the
    concatenations they stand for, and the import of [sysconfig] at the
    head of the function is taken to succeed. *)
Definition check_config_h : result (str * str) :=
  if str_contains (lit "GCC") sys_version then
    OK (CONFIG_H_OK, lit "sys.version mentions 'GCC'")
  else
    let fn := get_config_h_filename in
    match read_text fn with
    | Raise (OSError exc) =>
        OK (CONFIG_H_UNCERTAIN,
            lit "couldn't read '" ++ fn ++ lit "': " ++ strerror exc)
    | Raise e => Raise e
    | OK config_h =>
        let substring := lit "__GNUC__" in
        let '(code, mention_inflected) :=
          if str_contains substring config_h
          then (CONFIG_H_OK, lit "mentions")
          else (CONFIG_H_NOTOK, lit "does not mention") in
        OK (code,
            repr fn ++ lit " " ++ mention_inflected ++ lit " "
              ++ repr substring)
    end.

(** [__init__] (lines 45-57): the calls it makes, in order.  The calls
    themselves are taken to return; [status is not CONFIG_H_OK] compares
    with one of the three constants [check_config_h] returns. *)
Definition __init__ (verbose dry_run force : bool)
    : result (list init_call) :=
  rbind check_config_h (fun '(status, details) =>
  OK ([ super_init verbose dry_run force;
        debug_print (lit "Python's GCC status: " ++ status
                       ++ lit " (details: " ++ details ++ lit ")") ]
      ++ (if bool_decide (status <> CONFIG_H_OK) then
            [ warn (lit "Python's pyconfig.h doesn't seem to support your compiler. "
                      ++ lit "Reason: " ++ details ++ lit ". "
                      ++ lit "Compiling may fail because of undefined preprocessor macros.") ]
          else [])
      ++ [ get_config_vars [lit "CC"; lit "CXX"] ])).

End Probe.

(** The content [x or []] evaluates to, for an argument that is [None]
    or the address of a list. *)
Definition cell (h : list (list str)) (x : option addr) : list str :=
  match x with
  | Some a => default [] (h !! a)
  | None => []
  end.

(** The argument, if a list, is a list of the heap. *)
Definition live (h : list (list str)) (x : option addr) : Prop :=
  match x with
  | Some a => (a < length h)%nat
  | None => True
  end.

(** [m] leaves the lists below address [n] as they are. *)
Definition keeps (n : nat) {A : Type} (m : M A) : Prop :=
  forall st a, (a < n)%nat -> heap (snd (m st)) !! a = heap st !! a.

(** [m] only adds calls to the log, and the calls it adds satisfy [Q]. *)
Definition emits (Q : call -> Prop) {A : Type} (m : M A) : Prop :=
  forall st,
    exists new, log (snd (m st)) = st.(log) ++ new /\ Forall Q new.

(** The object list a call hands to the underlying link step. *)
Definition linked_objects (c : call) : option (list str) :=
  match c with
  | super_link _ objects _ _ _ _ _ _ _ _ _ _ _ => Some objects
  | _ => None
  end.

(** The call of the underlying link step that [link] makes for a stem of
    at most 8 characters, on the object list [linked], given the content of
    the caller's libraries and pre-arguments. *)
Definition underlying_link_call (P : os_path) (self : Compiler)
    (target : target_desc) (output_filename : str)
    (output_dir : option str) (libraries : list str)
    (library_dirs runtime_library_dirs : option (list str)) (debug : bool)
    (extra_preargs : list str) (extra_postargs : option (list str))
    (build_temp target_lang : option str) (linked : list str) : call :=
  super_link target linked
    (P.(join) (P.(dirname) output_filename)
       (fst (P.(splitext) (P.(basename) output_filename))
          ++ snd (P.(splitext) (P.(basename) output_filename))))
    output_dir (libraries ++ self.(dll_libraries))
    library_dirs runtime_library_dirs None debug
    (extra_preargs ++ (if debug then [] else [lit "-s"]))
    extra_postargs build_temp target_lang.

(** The calls of the alias stage. *)
Definition is_alias_call (c : call) : bool :=
  match c with
  | os_remove _ | os_symlink _ _ => true
  | _ => false
  end.

(** ** The specification's own wording *)

(** The short stem as the specification words it: the stem itself when it
    has at most 8 characters, otherwise 3 characters of the basename and
    the decimal sum of the code points of the whole name, modulo 65536. *)
Definition spec_short_stem (P : os_path) (output_filename : str) : str :=
  let stem := fst (P.(splitext) (P.(basename) output_filename)) in
  if (length stem <=? 8)%nat then stem
  else take 3 (P.(basename) output_filename)
         ++ str_of_int (foldr N.add 0 (map ord output_filename) mod 65536).

(** The candidates of the library search in the specification's order:
    directory by directory, the six variants inside each. *)
Definition spec_candidates (P : os_path) (search_dirs : list str)
    (lib : str) : list str :=
  flat_map
    (fun dir =>
       map (P.(join) dir)
         [ lib ++ lit ".lib"; lib ++ lit ".a"; lib ++ lit "_dll.a";
           lit "lib" ++ lib ++ lit ".lib"; lit "lib" ++ lib ++ lit ".a";
           lit "lib" ++ lib ++ lit "_dll.a" ])
    search_dirs.

(** Sample values for the concrete runs. *)
Module Sample.

Definition px : os_path := posixpath.path.

(** A compiler whose inherited attributes are the ones of the Unix
    driver, with the GCC runtime as implicit library. *)
Definition self : Compiler :=
  {| compiler_so := [lit "gcc"; lit "-O2"];
     dll_libraries := [lit "gcc"];
     version := None;
     src_extensions :=
       map lit [ ".c"; ".C"; ".cc"; ".cxx"; ".cpp"; ".m" ]%string |}.

(** An outside in which every call returns. *)
Definition quiet : list call -> call -> option exn := fun _ _ => None.

(** An outside in which removing a file is refused ([PermissionError])
    and everything else returns. *)
Definition denied : list call -> call -> option exn :=
  fun _ c =>
    match c with
    | os_remove _ => Some (OSError EACCES)
    | _ => None
    end.

Definition no_env : str -> option str := fun _ => None.
Definition clock : str -> str := fun _ => lit "04 Nov 2026 12:00:00".
Definition host : str := lit "warpbox".

(** A heap with the caller's object list, library list and pre-arguments
    at the addresses 0, 1 and 2. *)
Definition st0 : state :=
  {| heap := [ [lit "build/a.o"; lit "build/b.o"]; [lit "m"]; [lit "-g"] ];
     log := [] |}.

End Sample.

(** * Properties *)

(** ** Library search *)

Section FindFacts.

Context {A : Type} (f : A -> bool).

Lemma find_app_split (l k : list A) :
  find f (l ++ k) =
  match find f l with Some x => Some x | None => find f k end.
Proof.
  induction l as [|x l IH]; simpl; [reflexivity|].
  destruct (f x); [reflexivity|exact IH].
Qed.

Lemma find_first (l : list A) (x : A) :
  find f l = Some x ->
  exists before after,
    l = before ++ x :: after /\ f x = true
    /\ Forall (fun y => f y = false) before.
Proof.
  induction l as [|y l IH]; simpl; [discriminate|].
  destruct (f y) eqn:Hy.
  - intros [= ->]. exists [], l. repeat split; [assumption|constructor].
  - intros Hx. destruct (IH Hx) as (before & after & -> & Hfx & Hall).
    exists (y :: before), after. repeat split; [assumption|].
    constructor; assumption.
Qed.

Lemma find_absent (l : list A) :
  find f l = None <-> Forall (fun y => f y = false) l.
Proof.
  induction l as [|y l IH]; simpl.
  - split; [constructor|reflexivity].
  - destruct (f y) eqn:Hy.
    + split; [discriminate|]. intros H. inversion H; congruence.
    + rewrite IH. split.
      * intros H. constructor; assumption.
      * intros H. inversion H; assumption.
Qed.

End FindFacts.

Lemma find_in_dir_find (P : os_path) (file_exists : str -> bool)
    (dir : str) (names : list str) :
  find_in_dir P file_exists dir names
  = find file_exists (map (P.(join) dir) names).
Proof.
  induction names as [|name names IH]; simpl; [reflexivity|].
  destruct (file_exists _); [reflexivity|exact IH].
Qed.

Lemma find_in_dirs_find (P : os_path) (file_exists : str -> bool)
    (dirs : list str) (names : list str) :
  find_in_dirs P file_exists dirs names
  = find file_exists (flat_map (fun dir => map (P.(join) dir) names) dirs).
Proof.
  induction dirs as [|dir dirs IH]; simpl; [reflexivity|].
  rewrite find_app_split, find_in_dir_find, IH. reflexivity.
Qed.

(** C4: [find_library_file] never raises; it returns the first existing
    file of the candidate list made of the caller's directories followed
    by the entries of the semicolon-split [LIBRARY_PATH], each directory
    contributing the six variants in their fixed order before the next
    directory is looked at; and it returns [None] exactly when no
    candidate exists. *)
Theorem find_library_file_first_existing (P : os_path)
    (environ : str -> option str) (file_exists : str -> bool)
    (dirs : list str) (lib : str) (debug : bool) :
  let search_dirs :=
    dirs ++ match environ (lit "LIBRARY_PATH") with
            | Some v => split 59 v
            | None => []
            end in
  let candidates := spec_candidates P search_dirs lib in
  exists found,
    find_library_file P environ file_exists dirs lib debug = OK found
    /\ found = find file_exists candidates
    /\ (forall libfile, found = Some libfile ->
         exists before after,
           candidates = before ++ libfile :: after
           /\ file_exists libfile = true
           /\ Forall (fun c => file_exists c = false) before)
    /\ (found = None <-> Forall (fun c => file_exists c = false) candidates).
Proof.
  intros search_dirs candidates.
  exists (find file_exists candidates).
  split; [|split; [reflexivity|split]].
  - unfold find_library_file, emx_dirs, environ_getitem.
    subst candidates search_dirs. unfold spec_candidates.
    destruct (environ (lit "LIBRARY_PATH")); simpl;
      rewrite find_in_dirs_find; reflexivity.
  - intros libfile. apply find_first.
  - apply find_absent.
Qed.

(** ** File name mapping *)

Lemma UnknownFileError_unbound :
  load_global "UnknownFileError" = Raise (NameError "UnknownFileError").
Proof. reflexivity. Qed.

Lemma reduce_unbound : load_global "reduce" = Raise (NameError "reduce").
Proof. reflexivity. Qed.

(** A source with an unrecognised extension stops the mapping, and what is
    raised is the [NameError] of the exception class's own name. *)
Lemma object_filename_unrecognised (P : os_path) (self : Compiler)
    (strip_dir : bool) (output_dir src_name : str) :
  snd (P.(splitext) src_name) ∉ self.(src_extensions) ++ _rc_extensions ->
  object_filename P self strip_dir output_dir src_name
  = Raise (NameError "UnknownFileError").
Proof.
  intros Hext. unfold object_filename.
  destruct (P.(splitext) src_name) as [base ext]; simpl in *.
  rewrite bool_decide_eq_false_2 by assumption.
  reflexivity.
Qed.

Lemma object_filenames_loop_unrecognised (P : os_path) (self : Compiler)
    (strip_dir : bool) (output_dir : str) (sources obj_names : list str) :
  (exists src_name,
      src_name ∈ sources
      /\ snd (P.(splitext) src_name)
           ∉ self.(src_extensions) ++ _rc_extensions) ->
  object_filenames_loop P self strip_dir output_dir sources obj_names
  = Raise (NameError "UnknownFileError").
Proof.
  revert obj_names.
  induction sources as [|src rest IH]; intros obj_names (bad & Hin & Hext).
  - inversion Hin.
  - simpl.
    destruct (decide (snd (P.(splitext) src)
                        ∈ self.(src_extensions) ++ _rc_extensions))
      as [Hok|Hbad].
    + destruct (object_filename P self strip_dir output_dir src) eqn:Hsrc.
      * simpl. apply IH. exists bad. split; [|assumption].
        apply elem_of_cons in Hin as [->|Hin]; [contradiction|assumption].
      * revert Hsrc. unfold object_filename.
        destruct (P.(splitext) src) as [base ext]; simpl in *.
        rewrite bool_decide_eq_true_2 by assumption. simpl.
        destruct (bool_decide _); discriminate.
    + rewrite object_filename_unrecognised by assumption. reflexivity.
Qed.

(** C5: on the sources [widget.c], [notes.xyz] the extension [.xyz] is
    neither a source nor a resource-script extension; [object_filenames]
    returns no path, but what it raises is [NameError] for the unbound name
    [UnknownFileError], not an error that names the extension and the
    source. *)
Theorem object_filenames_unknown_kind_is_NameError :
  let sources := [lit "widget.c"; lit "notes.xyz"] in
  snd (Sample.px.(splitext) (lit "notes.xyz")) = lit ".xyz"
  /\ (lit ".xyz" ∉ Sample.self.(src_extensions) ++ _rc_extensions)
  /\ object_filenames Sample.px Sample.self sources false None
     = Raise (NameError "UnknownFileError")
  /\ forall msg,
       object_filenames Sample.px Sample.self sources false None
       <> Raise (UnknownFileError msg).
Proof.
  assert (Hext : snd (Sample.px.(splitext) (lit "notes.xyz")) = lit ".xyz")
    by reflexivity.
  assert (Hnot : lit ".xyz" ∉ Sample.self.(src_extensions) ++ _rc_extensions).
  { apply (bool_decide_eq_false_1 _). vm_compute. reflexivity. }
  assert (Hraise :
    object_filenames Sample.px Sample.self
      [lit "widget.c"; lit "notes.xyz"] false None
    = Raise (NameError "UnknownFileError")).
  { apply object_filenames_loop_unrecognised.
    exists (lit "notes.xyz"). split; [|rewrite Hext; exact Hnot].
    apply elem_of_cons. right. apply elem_of_cons. left. reflexivity. }
  repeat split; try assumption.
  intros msg. cbv zeta. rewrite Hraise. discriminate.
Qed.

(** ** Compile dispatch *)

Lemma trace_app {A} (m : M A) (st : state) (new : list call) :
  (snd (m st)).(log) = st.(log) ++ new -> trace m st = new.
Proof. intros H. unfold trace. rewrite H. apply drop_app_length. Qed.

Lemma compile_rc_runs_rc (reply : list call -> call -> option exn)
    (self : Compiler) (obj src : str) (cc_args extra_postargs pp_opts : list str)
    (st : state) :
  trace (_compile reply self obj src (lit ".rc")
           cc_args extra_postargs pp_opts) st
  = [spawn [lit "rc"; lit "-r"; src]].
Proof.
  apply trace_app. unfold _compile, try_except, perform. simpl.
  destruct (reply _ _) as [e|]; [|reflexivity].
  destruct e; reflexivity.
Qed.

Lemma compile_other_runs_cc (reply : list call -> call -> option exn)
    (self : Compiler) (obj src ext : str)
    (cc_args extra_postargs pp_opts : list str) (st : state) :
  ext <> lit ".rc" ->
  trace (_compile reply self obj src ext cc_args extra_postargs pp_opts) st
  = [spawn (self.(compiler_so) ++ cc_args ++ [src; lit "-o"; obj]
              ++ extra_postargs)].
Proof.
  intros Hext. apply trace_app. unfold _compile.
  rewrite bool_decide_eq_false_2 by assumption.
  unfold try_except, perform. simpl.
  destruct (reply _ _) as [e|]; [|reflexivity].
  destruct e; reflexivity.
Qed.

(** C3: [.RC] is one of the resource-script extensions, and
    [object_filenames] plans a [.res] file for it, yet [_compile] hands a
    source with that extension to the C compiler: the only call it makes is
    the compiler command with [-o] and the object path, never [rc -r]. *)
Theorem compile_RC_runs_c_compiler (reply : list call -> call -> option exn)
    (self : Compiler) (cc_args extra_postargs pp_opts : list str)
    (st : state) :
  (lit ".RC" ∈ _rc_extensions)
  /\ object_filenames Sample.px self [lit "widget.RC"] false None
     = OK [lit "widget.res"]
  /\ trace (_compile reply self (lit "widget.res") (lit "widget.RC")
              (lit ".RC") cc_args extra_postargs pp_opts) st
     = [spawn (self.(compiler_so) ++ cc_args
                 ++ [lit "widget.RC"; lit "-o"; lit "widget.res"]
                 ++ extra_postargs)].
Proof.
  split; [|split].
  - apply elem_of_cons. right. apply elem_of_cons. left. reflexivity.
  - unfold object_filenames, object_filenames_loop, object_filename.
    change (Sample.px.(splitext) (lit "widget.RC"))
      with (lit "widget", lit ".RC").
    cbv iota beta.
    rewrite bool_decide_eq_true_2.
    2:{ apply elem_of_app. right. apply elem_of_cons. right.
        apply elem_of_cons. left. reflexivity. }
    reflexivity.
  - apply compile_other_runs_cc. discriminate.
Qed.

(** ** The 8 character name *)

Lemma digits_length (fuel k : nat) (n : N) (acc : str) :
  (1 <= k)%nat -> n < 10 ^ N.of_nat k ->
  (length (digits fuel n acc) <= length acc + k)%nat.
Proof.
  revert k n acc.
  induction fuel as [|fuel IH]; intros k n acc Hk Hn; simpl; [lia|].
  destruct (N.eqb_spec (n / 10) 0) as [Hq|Hq]; simpl; [lia|].
  assert (Hk2 : (2 <= k)%nat).
  { destruct (decide (k = 1%nat)) as [->|]; [|lia].
    exfalso. apply Hq. apply N.div_small. exact Hn. }
  specialize (IH (k - 1)%nat (n / 10) ((48 + n mod 10) :: acc)).
  simpl in IH. etransitivity; [apply IH|lia]; [lia|].
  apply N.Div0.div_lt_upper_bound.
  replace (N.of_nat k) with (N.succ (N.of_nat (k - 1))) in Hn by lia.
  rewrite N.pow_succ_r' in Hn. exact Hn.
Qed.

Lemma str_of_int_length_16bit (n : N) :
  (length (str_of_int (n mod 65536)) <= 5)%nat.
Proof.
  unfold str_of_int.
  apply (digits_length _ 5 _ []); [lia|].
  assert (n mod 65536 < 65536) by (apply N.mod_lt; discriminate).
  change (10 ^ N.of_nat 5) with 100000. lia.
Qed.

(** The stem the specification describes has at most 8 characters. *)
Lemma spec_short_stem_length (P : os_path) (output_filename : str) :
  (length (spec_short_stem P output_filename) <= 8)%nat.
Proof.
  unfold spec_short_stem.
  destruct (Nat.leb_spec
              (length (fst (P.(splitext) (P.(basename) output_filename)))) 8)
    as [Hle|Hgt]; [exact Hle|].
  rewrite length_app, length_take.
  pose proof (str_of_int_length_16bit
                (foldr N.add 0 (map ord output_filename))).
  lia.
Qed.

Lemma fold_left_add_foldr (l : list N) (x : N) :
  fold_left N.add l x = x + foldr N.add 0 l.
Proof.
  revert x. induction l as [|y l IH]; intros x; simpl; [lia|].
  rewrite IH. lia.
Qed.

(** With [reduce] resolved to [functools.reduce], line 93 computes the
    name the specification describes. *)
Lemma hashed_name_resolved_spec (P : os_path) (output_filename : str) :
  output_filename <> [] ->
  hashed_name_resolved P output_filename
  = OK (take 3 (P.(basename) output_filename)
          ++ str_of_int (foldr N.add 0 (map ord output_filename) mod 65536)).
Proof.
  intros Hne. unfold hashed_name_resolved.
  destruct output_filename as [|c rest]; [contradiction|]. simpl.
  rewrite fold_left_add_foldr. reflexivity.
Qed.

Lemma short_name_short (P : os_path) (output_filename : str) :
  let name := P.(splitext) (P.(basename) output_filename) in
  (length (fst name) <= 8)%nat ->
  short_name P output_filename = OK (fst name, snd name, fst name).
Proof.
  intros name Hlen. unfold short_name. fold name.
  destruct name as [dll_name dll_extension]. simpl in *.
  destruct (Nat.ltb_spec 8 (length dll_name)); [lia|reflexivity].
Qed.

Lemma short_name_long (P : os_path) (output_filename : str) :
  (8 < length (fst (P.(splitext) (P.(basename) output_filename))))%nat ->
  short_name P output_filename = Raise (NameError "reduce").
Proof.
  intros Hlen. unfold short_name.
  destruct (P.(splitext) _) as [dll_name dll_extension]. simpl in *.
  destruct (Nat.ltb_spec 8 (length dll_name)); [reflexivity|lia].
Qed.

(** C8: the stem the specification describes never exceeds 8 characters,
    and a stem that [link] derives is the original one, of at most 8
    characters; but for every longer stem [link] derives none: line 93
    raises [NameError] because [reduce] is not a name of the module. *)
Theorem short_name_bounded_or_NameError (P : os_path)
    (output_filename : str) :
  let stem := fst (P.(splitext) (P.(basename) output_filename)) in
  (length (spec_short_stem P output_filename) <= 8)%nat
  /\ match short_name P output_filename with
     | OK (_, _, dll_name8) => dll_name8 = stem /\ (length stem <= 8)%nat
     | Raise e => e = NameError "reduce" /\ (8 < length stem)%nat
     end.
Proof.
  intros stem. split; [apply spec_short_stem_length|].
  destruct (Nat.le_gt_cases (length stem) 8) as [Hle|Hgt].
  - rewrite short_name_short by exact Hle. split; [reflexivity|exact Hle].
  - rewrite short_name_long by exact Hgt. split; [reflexivity|exact Hgt].
Qed.

(** ** The definition file *)

Lemma fold_left_snoc {A B} (g : B -> A) (l : list B) (init : list A) :
  fold_left (fun acc x => acc ++ [g x]) l init = init ++ map g l.
Proof.
  revert init. induction l as [|x l IH]; intros init; simpl.
  - symmetry. apply app_nil_r.
  - rewrite IH, <- app_assoc. reflexivity.
Qed.

(** The lines of the definition file, written out. *)
Lemma def_file_contents_lines (vendor version date_time host : str)
    (dll_name8 dll_name : str) (symbols : list str) :
  def_file_contents vendor version date_time host dll_name8 dll_name symbols
  = [ lit "LIBRARY " ++ dll_name8 ++ lit " INITINSTANCE TERMINSTANCE";
      lit "DESCRIPTION " ++ dquote ++ lit "@#" ++ vendor ++ lit ":"
        ++ version ++ lit "#@##1## " ++ date_time ++ lit "     " ++ host
        ++ lit "::::0::@@" ++ dll_name ++ dquote;
      lit "DATA MULTIPLE NONSHARED";
      lit "EXPORTS" ]
    ++ map (fun symbol => lit "  " ++ dquote ++ lit "_" ++ symbol ++ dquote)
         symbols.
Proof.
  unfold def_file_contents. rewrite fold_left_snoc. reflexivity.
Qed.

Lemma export_line_is_not_keyword (symbols : list str) (i : nat) :
  map (fun symbol => lit "  " ++ dquote ++ lit "_" ++ symbol ++ dquote)
    symbols !! i
  <> Some (lit "EXPORTS").
Proof.
  revert i. induction symbols as [|symbol symbols IH]; intros [|i]; simpl;
    try discriminate.
  apply IH.
Qed.

Lemma target_not_executable (target : target_desc) :
  target <> EXECUTABLE -> negb (target_desc_eqb target EXECUTABLE) = true.
Proof. destruct target; [contradiction|reflexivity|reflexivity]. Qed.

Lemma percent_writing (def_file : str) :
  percent (lit "writing %s") [def_file] = lit "writing " ++ def_file.
Proof.
  transitivity (lit "writing " ++ def_file ++ []); [reflexivity|].
  rewrite app_nil_r. reflexivity.
Qed.

Lemma write_def_file_run (P : os_path)
    (reply : list call -> call -> option exn) (getenv : str -> option str)
    (now_strftime : str -> str) (uname_nodename : str) (self : Compiler)
    (target : target_desc) (symbols : list str) (dll_name dll_name8 : str)
    (objects : addr) (st : state) (first_object : str) (rest : list str) :
  target <> EXECUTABLE ->
  default [] (st.(heap) !! objects) = first_object :: rest ->
  let def_file :=
    P.(join) (P.(dirname) first_object) (dll_name ++ lit ".def") in
  let vendor :=
    match getenv (lit "VENDOR") with
    | Some (c :: v) => c :: v
    | _ => lit "python build system"
    end in
  let version :=
    match self.(version) with
    | Some (c :: v) => c :: v
    | _ => lit "0.0"
    end in
  let written :=
    execute_write_file def_file
      (def_file_contents vendor version
         (now_strftime (lit "%d %b %Y %H:%M:%S")) uname_nodename
         dll_name8 dll_name symbols)
      (lit "writing " ++ def_file) in
  write_def_file P reply getenv now_strftime uname_nodename self target
    (Some symbols) dll_name dll_name8 objects st
  = match reply st.(log) written with
    | None =>
        (OK tt,
         State (<[objects := (first_object :: rest) ++ [def_file]]> st.(heap))
           (st.(log) ++ [written]))
    | Some e => (Raise e, State st.(heap) (st.(log) ++ [written]))
    end.
Proof.
  intros Htarget Hobjects def_file vendor version' written.
  unfold write_def_file. rewrite (target_not_executable _ Htarget).
  unfold bind, getitem, perform, append, extend.
  rewrite Hobjects. simpl.
  replace (if falsy (getenv (lit "VENDOR")) then lit "python build system"
           else default [] (getenv (lit "VENDOR"))) with vendor
    by (subst vendor; destruct (getenv (lit "VENDOR")) as [[|c v]|];
        reflexivity).
  replace (if falsy self.(version) then lit "0.0"
           else default [] self.(version)) with version'
    by (subst version'; destruct self.(version) as [[|c v]|]; reflexivity).
  rewrite percent_writing. fold def_file. fold written.
  destruct (reply (log st) written); [reflexivity|].
  simpl. rewrite Hobjects. reflexivity.
Qed.

(** C2: with an export list and a target that is not an executable, the
    definition-file block writes one file, next to the first object and
    named after the long stem, whose lines are, in order: the [LIBRARY]
    line with the 8 character name, the [DESCRIPTION] line with vendor
    ([VENDOR] if set and not empty, else a default), version (the
    compiler's, else 0.0), time stamp, host and long name, the [DATA] line,
    the [EXPORTS] line, and one quoted, underscore-prefixed line for each
    symbol in the order given; [EXPORTS] is the fourth line and no other. *)
Theorem write_def_file_lines (P : os_path)
    (reply : list call -> call -> option exn) (getenv : str -> option str)
    (now_strftime : str -> str) (uname_nodename : str) (self : Compiler)
    (target : target_desc) (symbols : list str) (dll_name dll_name8 : str)
    (objects : addr) (st : state) (first_object : str) (rest : list str) :
  target <> EXECUTABLE ->
  st.(heap) !! objects = Some (first_object :: rest) ->
  let vendor :=
    match getenv (lit "VENDOR") with
    | Some (c :: v) => c :: v
    | _ => lit "python build system"
    end in
  let version :=
    match self.(version) with
    | Some (c :: v) => c :: v
    | _ => lit "0.0"
    end in
  let timestamp := now_strftime (lit "%d %b %Y %H:%M:%S") in
  let def_file :=
    P.(join) (P.(dirname) first_object) (dll_name ++ lit ".def") in
  let contents :=
    [ lit "LIBRARY " ++ dll_name8 ++ lit " INITINSTANCE TERMINSTANCE";
      lit "DESCRIPTION " ++ dquote ++ lit "@#" ++ vendor ++ lit ":"
        ++ version ++ lit "#@##1## " ++ timestamp ++ lit "     "
        ++ uname_nodename ++ lit "::::0::@@" ++ dll_name ++ dquote;
      lit "DATA MULTIPLE NONSHARED";
      lit "EXPORTS" ]
    ++ map (fun symbol => lit "  " ++ dquote ++ lit "_" ++ symbol ++ dquote)
         symbols in
  trace (write_def_file P reply getenv now_strftime uname_nodename self
           target (Some symbols) dll_name dll_name8 objects) st
  = [execute_write_file def_file contents (lit "writing " ++ def_file)]
  /\ (forall i, contents !! i = Some (lit "EXPORTS") <-> i = 3%nat).
Proof.
  intros Htarget Hobjects vendor version' timestamp def_file contents.
  split.
  - apply trace_app.
    rewrite (write_def_file_run P reply getenv now_strftime uname_nodename
               self target symbols dll_name dll_name8 objects st
               first_object rest Htarget)
      by (rewrite Hobjects; reflexivity).
    rewrite def_file_contents_lines.
    destruct (reply _ _); reflexivity.
  - intros i. subst contents.
    destruct i as [|[|[|[|i]]]]; simpl; try (split; [discriminate|lia]).
    + split; reflexivity.
    + split; [|lia]. intros H.
      exfalso. exact (export_line_is_not_keyword symbols i H).
Qed.

(** The block is skipped for an executable and without an export list. *)
Lemma write_def_file_skipped (P : os_path)
    (reply : list call -> call -> option exn) (getenv : str -> option str)
    (now_strftime : str -> str) (uname_nodename : str) (self : Compiler)
    (target : target_desc) (export_symbols : option (list str))
    (dll_name dll_name8 : str) (objects : addr) (st : state) :
  target = EXECUTABLE \/ export_symbols = None ->
  write_def_file P reply getenv now_strftime uname_nodename self target
    export_symbols dll_name dll_name8 objects st
  = (OK tt, st).
Proof.
  intros [-> | ->]; unfold write_def_file; [|reflexivity].
  destruct export_symbols; reflexivity.
Qed.

Lemma write_def_file_no_object (P : os_path)
    (reply : list call -> call -> option exn) (getenv : str -> option str)
    (now_strftime : str -> str) (uname_nodename : str) (self : Compiler)
    (target : target_desc) (symbols : list str)
    (dll_name dll_name8 : str) (objects : addr) (st : state) :
  target <> EXECUTABLE ->
  default [] (st.(heap) !! objects) = [] ->
  write_def_file P reply getenv now_strftime uname_nodename self target
    (Some symbols) dll_name dll_name8 objects st
  = (Raise IndexError, st).
Proof.
  intros Htarget Hobjects. unfold write_def_file.
  rewrite (target_not_executable _ Htarget).
  unfold bind, getitem. rewrite Hobjects. reflexivity.
Qed.

(** ** The working copies *)

Lemma bind_ok {A B} (m : M A) (k : A -> M B) (st st' : state) (a : A) :
  m st = (OK a, st') -> bind m k st = k a st'.
Proof. intros H. unfold bind. rewrite H. reflexivity. Qed.

Lemma bind_raise {A B} (m : M A) (k : A -> M B) (st st' : state) (e : exn) :
  m st = (Raise e, st') -> bind m k st = (Raise e, st').
Proof. intros H. unfold bind. rewrite H. reflexivity. Qed.

Lemma copy_or_empty_run (x : option addr) (st : state) :
  bind (or_empty x) copy_list st
  = (OK (length st.(heap)),
     State (st.(heap) ++ [cell st.(heap) x]) st.(log)).
Proof. destruct x; reflexivity. Qed.

Lemma prepare_run (self : Compiler)
    (objects libraries extra_preargs : option addr) (st : state) :
  let n := length st.(heap) in
  let pre := cell st.(heap) extra_preargs in
  let libs := cell (st.(heap) ++ [pre]) libraries in
  let objs := cell (st.(heap) ++ [pre; libs]) objects in
  prepare self objects libraries extra_preargs st
  = (OK (n, S n, S (S n)),
     State (st.(heap) ++ [pre; libs ++ self.(dll_libraries); objs])
       st.(log)).
Proof.
  intros n pre libs objs. unfold prepare.
  erewrite bind_ok by apply copy_or_empty_run.
  erewrite bind_ok by apply copy_or_empty_run.
  erewrite bind_ok by apply copy_or_empty_run.
  unfold bind, extend, ret. cbn [heap log]. fold pre.
  rewrite <- !app_assoc. cbn [app]. fold libs. fold objs.
  rewrite !length_app. cbn [length].
  rewrite insert_app_r, lookup_app_r by lia.
  replace (length (heap st) + 1 - length (heap st))%nat with 1%nat by lia.
  subst n.
  replace (length (heap st) + 1)%nat with (S (length (heap st))) by lia.
  replace (length (heap st) + 2)%nat with (S (S (length (heap st)))) by lia.
  reflexivity.
Qed.

(** ** The whole of [link] *)

Section LinkFacts.

Context (P : os_path) (reply : list call -> call -> option exn).
Context (getenv : str -> option str) (now_strftime : str -> str).
Context (uname_nodename : str) (self : Compiler).


(** The state in which the copies have been made. *)
Lemma link_after_prepare (target : target_desc) (objects : option addr)
    (output_filename : str) (output_dir : option str)
    (libraries : option addr)
    (library_dirs runtime_library_dirs : option (list str))
    (export_symbols : option (list str)) (debug : bool)
    (extra_preargs : option addr) (extra_postargs : option (list str))
    (build_temp target_lang : option str) (st : state) :
  exists pre libs objs,
    let n := length st.(heap) in
    let st1 :=
      State (st.(heap) ++ [pre; libs ++ self.(dll_libraries); objs])
        st.(log) in
    pre = cell st.(heap) extra_preargs
    /\ libs = cell (st.(heap) ++ [pre]) libraries
    /\ objs = cell (st.(heap) ++ [pre; libs]) objects
    /\ link P reply getenv now_strftime uname_nodename self target objects
         output_filename output_dir libraries library_dirs
         runtime_library_dirs export_symbols debug extra_preargs
         extra_postargs build_temp target_lang st
       = match short_name P output_filename with
         | Raise e => (Raise e, st1)
         | OK (dll_name, dll_extension, dll_name8) =>
             (write_def_file P reply getenv now_strftime uname_nodename self
                target export_symbols dll_name dll_name8 (S (S n)) ;;
              (if negb debug then append n (lit "-s") else ret tt) ;;
              objects_now <- content (S (S n)) ;;
              libraries_now <- content (S n) ;;
              extra_preargs_now <- content n ;;
              perform reply
                (super_link target objects_now
                   (P.(join) (P.(dirname) output_filename)
                      (dll_name8 ++ dll_extension))
                   output_dir libraries_now library_dirs
                   runtime_library_dirs None debug extra_preargs_now
                   extra_postargs build_temp target_lang) ;;
              alias_long_name reply dll_name dll_name8 dll_extension
                output_filename)%eff st1
         end.
Proof.
  eexists _, _, _. cbv zeta. repeat split.
  unfold link.
  erewrite bind_ok by apply prepare_run.
  unfold lift. unfold bind at 1.
  destruct (short_name P output_filename) as [[[dll_name ext] name8]|e];
    reflexivity.
Qed.

(** *** Lists below the copies are not written *)

Lemma keeps_ret {A} (n : nat) (x : A) : keeps n (ret x).
Proof. intros st a _. reflexivity. Qed.

Lemma keeps_content (n : nat) (a : addr) : keeps n (content a).
Proof. intros st b _. reflexivity. Qed.

Lemma keeps_perform (n : nat) (c : call) : keeps n (perform reply c).
Proof.
  intros st a _. unfold perform. destruct (reply _ _); reflexivity.
Qed.

Lemma keeps_getitem (n : nat) (a : addr) (i : nat) : keeps n (getitem a i).
Proof.
  intros st b _. unfold getitem. destruct (_ !! i); reflexivity.
Qed.

Lemma keeps_extend (n : nat) (a : addr) (l : list str) :
  (n <= a)%nat -> keeps n (extend a l).
Proof.
  intros Hn st b Hb. unfold extend. cbn [snd heap].
  apply list_lookup_insert_ne. lia.
Qed.

Lemma keeps_bind {A B} (n : nat) (m : M A) (k : A -> M B) :
  keeps n m -> (forall x, keeps n (k x)) -> keeps n (bind m k).
Proof.
  intros Hm Hk st a Ha. unfold bind.
  specialize (Hm st a Ha). destruct (m st) as [[x|e] st']; cbn [snd] in *.
  - rewrite (Hk x st' a Ha). exact Hm.
  - exact Hm.
Qed.

Lemma keeps_try_except {A} (n : nat) (m : M A) (handles : exn -> bool)
    (handler : exn -> M A) :
  keeps n m -> (forall e, keeps n (handler e)) ->
  keeps n (try_except m handles handler).
Proof.
  intros Hm Hh st a Ha. unfold try_except.
  specialize (Hm st a Ha). destruct (m st) as [[x|e] st']; cbn [snd] in *.
  - exact Hm.
  - destruct (handles e); [|exact Hm].
    rewrite (Hh e st' a Ha). exact Hm.
Qed.

Lemma keeps_write_def_file (n : nat) (target : target_desc)
    (export_symbols : option (list str)) (dll_name dll_name8 : str)
    (objects : addr) :
  (n <= objects)%nat ->
  keeps n (write_def_file P reply getenv now_strftime uname_nodename self
             target export_symbols dll_name dll_name8 objects).
Proof.
  intros Hn. unfold write_def_file.
  destruct export_symbols as [symbols|]; [|apply keeps_ret].
  destruct (negb _); [|apply keeps_ret].
  apply keeps_bind; [apply keeps_getitem|]. intros first_object.
  apply keeps_bind; [apply keeps_perform|]. intros _.
  apply keeps_extend. exact Hn.
Qed.

Lemma keeps_alias_long_name (n : nat)
    (dll_name dll_name8 dll_extension output_filename : str) :
  keeps n (alias_long_name reply dll_name dll_name8 dll_extension
             output_filename).
Proof.
  unfold alias_long_name. destruct (_ <? _)%nat; [|apply keeps_ret].
  apply keeps_bind; [|intros _; apply keeps_perform].
  apply keeps_try_except; [apply keeps_perform|intros _; apply keeps_ret].
Qed.

(** Everything [link] does after the copies are made. *)
Lemma keeps_link_body (target : target_desc) (output_filename : str)
    (output_dir : option str)
    (library_dirs runtime_library_dirs : option (list str))
    (export_symbols : option (list str)) (debug : bool)
    (extra_postargs : option (list str)) (build_temp target_lang : option str)
    (dll_name dll_extension dll_name8 : str) (n : nat) :
  keeps n
    (write_def_file P reply getenv now_strftime uname_nodename self
       target export_symbols dll_name dll_name8 (S (S n)) ;;
     (if negb debug then append n (lit "-s") else ret tt) ;;
     objects_now <- content (S (S n)) ;;
     libraries_now <- content (S n) ;;
     extra_preargs_now <- content n ;;
     perform reply
       (super_link target objects_now
          (P.(join) (P.(dirname) output_filename)
             (dll_name8 ++ dll_extension))
          output_dir libraries_now library_dirs
          runtime_library_dirs None debug extra_preargs_now
          extra_postargs build_temp target_lang) ;;
     alias_long_name reply dll_name dll_name8 dll_extension
       output_filename)%eff.
Proof.
  apply keeps_bind; [apply keeps_write_def_file; lia|]. intros _.
  apply keeps_bind.
  { destruct (negb debug); [apply keeps_extend; lia|apply keeps_ret]. }
  intros _.
  apply keeps_bind; [apply keeps_content|]. intros objects_now.
  apply keeps_bind; [apply keeps_content|]. intros libraries_now.
  apply keeps_bind; [apply keeps_content|]. intros extra_preargs_now.
  apply keeps_bind; [apply keeps_perform|]. intros _.
  apply keeps_alias_long_name.
Qed.

End LinkFacts.

(** ** The alias stage *)

Lemma alias_long_name_run (reply : list call -> call -> option exn)
    (dll_name dll_name8 dll_extension output_filename : str) (st : state) :
  (8 < length dll_name)%nat ->
  let removal := os_remove output_filename in
  let alias := os_symlink (dll_name8 ++ dll_extension) output_filename in
  let linked := State st.(heap) (st.(log) ++ [removal; alias]) in
  let symlink :=
    match reply (st.(log) ++ [removal]) alias with
    | None => (OK tt, linked)
    | Some e => (Raise e, linked)
    end in
  alias_long_name reply dll_name dll_name8 dll_extension output_filename st
  = match reply st.(log) removal with
    | None => symlink
    | Some e =>
        if isinstance_OSError e then symlink
        else (Raise e, State st.(heap) (st.(log) ++ [removal]))
    end.
Proof.
  intros Hlen removal alias linked symlink.
  unfold alias_long_name.
  destruct (Nat.ltb_spec 8 (length dll_name)) as [_|Hle]; [|lia].
  unfold bind, try_except, perform, ret. cbn [heap log].
  fold removal. fold alias. subst symlink linked.
  destruct (reply (log st) removal) as [e|].
  - destruct (isinstance_OSError e); [|reflexivity].
    cbn [heap log]. rewrite <- app_assoc. reflexivity.
  - cbn [heap log]. rewrite <- app_assoc. reflexivity.
Qed.

Lemma alias_long_name_short (reply : list call -> call -> option exn)
    (dll_name dll_name8 dll_extension output_filename : str) (st : state) :
  (length dll_name <= 8)%nat ->
  alias_long_name reply dll_name dll_name8 dll_extension output_filename st
  = (OK tt, st).
Proof.
  intros Hlen. unfold alias_long_name.
  destruct (Nat.ltb_spec 8 (length dll_name)) as [Hgt|_]; [lia|reflexivity].
Qed.

(** The alias stage only removes and links. *)
Lemma alias_long_name_calls (reply : list call -> call -> option exn)
    (dll_name dll_name8 dll_extension output_filename : str) (st : state) :
  exists new,
    log (snd (alias_long_name reply dll_name dll_name8 dll_extension
                output_filename st))
    = st.(log) ++ new
    /\ Forall (fun c => is_alias_call c = true) new.
Proof.
  destruct (Nat.le_gt_cases (length dll_name) 8) as [Hle|Hgt].
  - rewrite alias_long_name_short by exact Hle.
    exists []. split; [symmetry; apply app_nil_r|constructor].
  - rewrite alias_long_name_run by exact Hgt. cbv zeta.
    destruct (reply (log st) _) as [e|].
    + destruct (isinstance_OSError e).
      * eexists [_; _].
        split; [destruct (reply (log st ++ _) _); reflexivity|].
        repeat constructor.
      * eexists [_]. split; [reflexivity|repeat constructor].
    + eexists [_; _].
      split; [destruct (reply (log st ++ _) _); reflexivity|].
      repeat constructor.
Qed.

(** ** The definition-file block inside [link] *)

Lemma copies_lookup_2 (h : list (list str)) (a b c : list str) :
  (h ++ [a; b; c]) !! S (S (length h)) = Some c.
Proof.
  rewrite lookup_app_r by lia.
  replace (S (S (length h)) - length h)%nat with 2%nat by lia. reflexivity.
Qed.

Lemma cell_live (h k : list (list str)) (x : option addr) :
  live h x -> cell (h ++ k) x = cell h x.
Proof.
  destruct x as [a|]; [|reflexivity]. simpl. intros Ha.
  rewrite lookup_app_l by exact Ha. reflexivity.
Qed.

(** Without the block, [link] writes no file and hands the underlying
    link step the caller's objects. *)
Lemma link_skipped_calls (P : os_path)
    (reply : list call -> call -> option exn) (getenv : str -> option str)
    (now_strftime : str -> str) (uname_nodename : str) (self : Compiler)
    (target : target_desc) (objects : option addr) (output_filename : str)
    (output_dir : option str) (libraries : option addr)
    (library_dirs runtime_library_dirs : option (list str))
    (export_symbols : option (list str)) (debug : bool)
    (extra_preargs : option addr) (extra_postargs : option (list str))
    (build_temp target_lang : option str) (st : state) :
  target = EXECUTABLE \/ export_symbols = None ->
  exists new,
    log (snd (link P reply getenv now_strftime uname_nodename self target
                objects output_filename output_dir libraries library_dirs
                runtime_library_dirs export_symbols debug extra_preargs
                extra_postargs build_temp target_lang st))
    = st.(log) ++ new
    /\ Forall
         (fun c =>
            is_write_file c = false
            /\ forall linked,
                 linked_objects c = Some linked ->
                 live st.(heap) objects ->
                 linked = cell st.(heap) objects)
         new.
Proof.
  intros Hskip.
  destruct (link_after_prepare P reply getenv now_strftime uname_nodename
              self target objects output_filename output_dir libraries
              library_dirs runtime_library_dirs export_symbols debug
              extra_preargs extra_postargs build_temp target_lang st)
    as (pre & libs & objs & _ & _ & Hobjs & ->).
  destruct (short_name P output_filename) as [[[dll_name ext] name8]|e].
  2:{ exists []. split; [symmetry; apply app_nil_r|constructor]. }
  set (n := length st.(heap)).
  set (st1 := State _ _).
  erewrite bind_ok by (apply write_def_file_skipped; exact Hskip).
  set (st2 := snd ((if negb debug then append n (lit "-s") else ret tt) st1)).
  assert (Hlog2 : log st2 = log st) by (subst st2; destruct debug; reflexivity).
  assert (Hobj2 : heap st2 !! S (S n) = Some objs).
  { subst st2 st1. destruct debug; cbn [negb snd append extend heap ret].
    - apply copies_lookup_2.
    - rewrite list_lookup_insert_ne by lia. apply copies_lookup_2. }
  erewrite (bind_ok _ _ st1 st2 tt) by (subst st2; destruct debug; reflexivity).
  erewrite bind_ok by reflexivity.
  erewrite bind_ok by reflexivity.
  erewrite bind_ok by reflexivity.
  rewrite Hobj2. cbn [default].
  match goal with
  | |- context [perform reply ?c] => set (linking := c)
  end.
  unfold bind, perform.
  destruct (reply (log st2) linking) as [e|].
  - exists [linking]. cbn [snd log]. rewrite Hlog2.
    split; [reflexivity|]. constructor; [|constructor].
    split; [reflexivity|]. intros linked [= <-] Hlive.
    rewrite Hobjs. apply cell_live. exact Hlive.
  - destruct (alias_long_name_calls reply dll_name name8 ext output_filename
                (State (heap st2) (log st2 ++ [linking])))
      as (new & Hnew & Halias).
    exists (linking :: new). rewrite Hnew. cbn [log]. rewrite Hlog2.
    split; [rewrite <- app_assoc; reflexivity|].
    constructor.
    + split; [reflexivity|]. intros linked [= <-] Hlive.
      rewrite Hobjs. apply cell_live. exact Hlive.
    + eapply Forall_impl; [exact Halias|].
      intros c Hc. destruct c; try discriminate; split;
        try reflexivity; intros linked; discriminate.
Qed.

(** *** The calls of [link] *)

Lemma emits_silent {A} (Q : call -> Prop) (m : M A) :
  (forall st, log (snd (m st)) = st.(log)) -> emits Q m.
Proof.
  intros Hm st. exists []. rewrite Hm.
  split; [symmetry; apply app_nil_r|constructor].
Qed.

Lemma emits_bind {A B} (Q : call -> Prop) (m : M A) (k : A -> M B) :
  emits Q m -> (forall x, emits Q (k x)) -> emits Q (bind m k).
Proof.
  intros Hm Hk st. unfold bind.
  destruct (Hm st) as (new & Hlog & Hnew).
  destruct (m st) as [[x|e] st']; cbn [snd] in *.
  - destruct (Hk x st') as (new' & Hlog' & Hnew').
    exists (new ++ new'). rewrite Hlog', Hlog, app_assoc.
    split; [reflexivity|]. apply Forall_app. split; assumption.
  - exists new. split; assumption.
Qed.

Lemma emits_try_except {A} (Q : call -> Prop) (m : M A)
    (handles : exn -> bool) (handler : exn -> M A) :
  emits Q m -> (forall e, emits Q (handler e)) ->
  emits Q (try_except m handles handler).
Proof.
  intros Hm Hh st. unfold try_except.
  destruct (Hm st) as (new & Hlog & Hnew).
  destruct (m st) as [[x|e] st']; cbn [snd] in *.
  - exists new. split; assumption.
  - destruct (handles e); [|exists new; split; assumption].
    destruct (Hh e st') as (new' & Hlog' & Hnew').
    exists (new ++ new'). rewrite Hlog', Hlog, app_assoc.
    split; [reflexivity|]. apply Forall_app. split; assumption.
Qed.

Lemma emits_perform (Q : call -> Prop)
    (reply : list call -> call -> option exn) (c : call) :
  Q c -> emits Q (perform reply c).
Proof.
  intros Hc st. exists [c]. unfold perform.
  split; [destruct (reply _ _); reflexivity|].
  constructor; [exact Hc|constructor].
Qed.

Lemma emits_alias_long_name (Q : call -> Prop)
    (reply : list call -> call -> option exn)
    (dll_name dll_name8 dll_extension output_filename : str) :
  (forall c, is_alias_call c = true -> Q c) ->
  emits Q (alias_long_name reply dll_name dll_name8 dll_extension
             output_filename).
Proof.
  intros HQ. unfold alias_long_name.
  destruct (_ <? _)%nat; [|apply emits_silent; reflexivity].
  apply emits_bind.
  - apply emits_try_except.
    + apply emits_perform, HQ. reflexivity.
    + intros _. apply emits_silent. reflexivity.
  - intros _. apply emits_perform, HQ. reflexivity.
Qed.

(** What follows the definition-file block writes no file. *)
Lemma emits_link_tail (P : os_path)
    (reply : list call -> call -> option exn) (target : target_desc)
    (output_filename : str) (output_dir : option str)
    (library_dirs runtime_library_dirs : option (list str)) (debug : bool)
    (extra_postargs : option (list str)) (build_temp target_lang : option str)
    (dll_name dll_extension dll_name8 : str) (n : nat) :
  emits (fun c => is_write_file c = false)
    ((if negb debug then append n (lit "-s") else ret tt) ;;
     objects_now <- content (S (S n)) ;;
     libraries_now <- content (S n) ;;
     extra_preargs_now <- content n ;;
     perform reply
       (super_link target objects_now
          (P.(join) (P.(dirname) output_filename)
             (dll_name8 ++ dll_extension))
          output_dir libraries_now library_dirs
          runtime_library_dirs None debug extra_preargs_now
          extra_postargs build_temp target_lang) ;;
     alias_long_name reply dll_name dll_name8 dll_extension
       output_filename)%eff.
Proof.
  apply emits_bind.
  { apply emits_silent. intros st. destruct debug; reflexivity. }
  intros _.
  apply emits_bind; [apply emits_silent; reflexivity|]. intros objects_now.
  apply emits_bind; [apply emits_silent; reflexivity|]. intros libraries_now.
  apply emits_bind; [apply emits_silent; reflexivity|]. intros pre_now.
  apply emits_bind; [apply emits_perform; reflexivity|]. intros _.
  apply emits_alias_long_name. intros c Hc. destruct c; try discriminate;
    reflexivity.
Qed.

(** A whole [link] that passes the name stage, with exports, a target that
    is not an executable and a first object, first writes the definition
    file of [write_def_file_lines] and writes no other file. *)
Lemma link_writes_def_file (P : os_path)
    (reply : list call -> call -> option exn) (getenv : str -> option str)
    (now_strftime : str -> str) (uname_nodename : str) (self : Compiler)
    (target : target_desc) (objects : option addr) (output_filename : str)
    (output_dir : option str) (libraries : option addr)
    (library_dirs runtime_library_dirs : option (list str))
    (symbols : list str) (debug : bool)
    (extra_preargs : option addr) (extra_postargs : option (list str))
    (build_temp target_lang : option str) (st : state)
    (dll_name dll_extension dll_name8 first_object : str)
    (rest : list str) :
  target <> EXECUTABLE ->
  live st.(heap) objects ->
  cell st.(heap) objects = first_object :: rest ->
  short_name P output_filename = OK (dll_name, dll_extension, dll_name8) ->
  let def_file :=
    P.(join) (P.(dirname) first_object) (dll_name ++ lit ".def") in
  let vendor :=
    match getenv (lit "VENDOR") with
    | Some (c :: v) => c :: v
    | _ => lit "python build system"
    end in
  let version :=
    match self.(version) with
    | Some (c :: v) => c :: v
    | _ => lit "0.0"
    end in
  exists later,
    trace (link P reply getenv now_strftime uname_nodename self target
             objects output_filename output_dir libraries library_dirs
             runtime_library_dirs (Some symbols) debug extra_preargs
             extra_postargs build_temp target_lang) st
    = execute_write_file def_file
        (def_file_contents vendor version
           (now_strftime (lit "%d %b %Y %H:%M:%S")) uname_nodename
           dll_name8 dll_name symbols)
        (lit "writing " ++ def_file)
      :: later
    /\ Forall (fun c => is_write_file c = false) later.
Proof.
  intros Htarget Hlive Hfirst Hname def_file vendor version'.
  destruct (link_after_prepare P reply getenv now_strftime uname_nodename
              self target objects output_filename output_dir libraries
              library_dirs runtime_library_dirs (Some symbols) debug
              extra_preargs extra_postargs build_temp target_lang st)
    as (pre & libs & objs & _ & _ & Hobjs & Hlink).
  rewrite cell_live in Hobjs by exact Hlive. rewrite Hfirst in Hobjs.
  rewrite Hname in Hlink.
  set (n := length st.(heap)) in *.
  set (st1 := State _ _) in Hlink.
  unfold bind at 1 in Hlink.
  rewrite (write_def_file_run P reply getenv now_strftime uname_nodename
             self target symbols dll_name dll_name8 (S (S n)) st1
             first_object rest Htarget) in Hlink.
  2:{ subst st1 n. cbn [heap]. rewrite copies_lookup_2, Hobjs. reflexivity. }
  cbv zeta in Hlink. fold def_file vendor version' in Hlink.
  cbn [log st1] in Hlink.
  destruct (reply (log st) _) as [e|].
  - exists []. split; [|constructor].
    apply trace_app. rewrite Hlink. reflexivity.
  - match type of Hlink with
    | _ = ?tail ?st2 =>
        destruct (emits_link_tail P reply target output_filename output_dir
                    library_dirs runtime_library_dirs debug extra_postargs
                    build_temp target_lang dll_name dll_extension dll_name8
                    n st2) as (later & Hlog & Hlater)
    end.
    exists later. split; [|exact Hlater].
    apply trace_app. rewrite Hlink, Hlog. cbn [log].
    rewrite <- app_assoc. reflexivity.
Qed.

(** C7: for an executable, [link] writes no definition file, with or
    without an export list, and the objects it hands to the underlying link
    step are the caller's, with nothing appended; and whenever [link] does
    write a definition file, an export list was given and the target is
    not an executable. *)
Theorem link_def_file_only_for_exports_of_non_executable (P : os_path)
    (reply : list call -> call -> option exn) (getenv : str -> option str)
    (now_strftime : str -> str) (uname_nodename : str) (self : Compiler)
    (target : target_desc) (objects : option addr) (output_filename : str)
    (output_dir : option str) (libraries : option addr)
    (library_dirs runtime_library_dirs : option (list str))
    (export_symbols : option (list str)) (debug : bool)
    (extra_preargs : option addr) (extra_postargs : option (list str))
    (build_temp target_lang : option str) (st : state) :
  live st.(heap) objects ->
  let calls target :=
    trace (link P reply getenv now_strftime uname_nodename self target
             objects output_filename output_dir libraries library_dirs
             runtime_library_dirs export_symbols debug extra_preargs
             extra_postargs build_temp target_lang) st in
  Forall
    (fun c =>
       is_write_file c = false
       /\ forall linked,
            linked_objects c = Some linked ->
            linked = cell st.(heap) objects)
    (calls EXECUTABLE)
  /\ (Exists (fun c => is_write_file c = true) (calls target) ->
      export_symbols <> None /\ target <> EXECUTABLE).
Proof.
  intros Hlive calls. split.
  - destruct (link_skipped_calls P reply getenv now_strftime uname_nodename
                self EXECUTABLE objects output_filename output_dir libraries
                library_dirs runtime_library_dirs export_symbols debug
                extra_preargs extra_postargs build_temp target_lang st)
      as (new & Hnew & Hall); [left; reflexivity|].
    subst calls. cbv beta. rewrite (trace_app _ _ _ Hnew).
    eapply Forall_impl; [exact Hall|].
    intros c [Hw Hl]. split; [exact Hw|]. intros linked Hc. auto.
  - intros Hwrite.
    assert (Hskip : ~ (target = EXECUTABLE \/ export_symbols = None)).
    { intros Hskip.
      destruct (link_skipped_calls P reply getenv now_strftime
                  uname_nodename self target objects output_filename
                  output_dir libraries library_dirs runtime_library_dirs
                  export_symbols debug extra_preargs extra_postargs
                  build_temp target_lang st Hskip)
        as (new & Hnew & Hall).
      subst calls. cbv beta in Hwrite. rewrite (trace_app _ _ _ Hnew) in Hwrite.
      apply Exists_exists in Hwrite as (c & Hin & Hc).
      rewrite Forall_forall in Hall. destruct (Hall c Hin) as [Hno _].
      congruence. }
    split; intros Heq; apply Hskip; [right|left]; exact Heq.
Qed.

(** C10: the definition-file block writes next to the first object, and
    with no object at all it raises [IndexError] at [objects[0]] before
    anything is written; a call of [link] with exports, a target that is
    not an executable and no objects therefore makes no outside call and
    fails, with that [IndexError] unless the name stage before the block
    has failed already. *)
Theorem write_def_file_needs_first_object (P : os_path)
    (reply : list call -> call -> option exn) (getenv : str -> option str)
    (now_strftime : str -> str) (uname_nodename : str) (self : Compiler)
    (target : target_desc) (objects : option addr) (output_filename : str)
    (output_dir : option str) (libraries : option addr)
    (library_dirs runtime_library_dirs : option (list str))
    (symbols : list str) (debug : bool)
    (extra_preargs : option addr) (extra_postargs : option (list str))
    (build_temp target_lang : option str) (dll_name dll_name8 : str)
    (st : state) :
  target <> EXECUTABLE ->
  let block copy :=
    write_def_file P reply getenv now_strftime uname_nodename self target
      (Some symbols) dll_name dll_name8 copy in
  let whole :=
    link P reply getenv now_strftime uname_nodename self target objects
      output_filename output_dir libraries library_dirs
      runtime_library_dirs (Some symbols) debug extra_preargs
      extra_postargs build_temp target_lang in
  (forall copy first_object rest,
      st.(heap) !! copy = Some (first_object :: rest) ->
      exists contents msg,
        trace (block copy) st
        = [execute_write_file
             (P.(join) (P.(dirname) first_object) (dll_name ++ lit ".def"))
             contents msg])
  /\ (forall copy,
        st.(heap) !! copy = Some [] ->
        block copy st = (Raise IndexError, st))
  /\ (live st.(heap) objects ->
      cell st.(heap) objects = [] ->
      trace whole st = []
      /\ outcome whole st
         = match short_name P output_filename with
           | OK _ => Raise IndexError
           | Raise e => Raise e
           end).
Proof.
  intros Htarget block whole. split; [|split].
  - intros copy first_object rest Hcopy.
    eexists _, _. apply trace_app. subst block. cbv beta.
    rewrite (write_def_file_run P reply getenv now_strftime uname_nodename
               self target symbols dll_name dll_name8 copy st
               first_object rest Htarget)
      by (rewrite Hcopy; reflexivity).
    destruct (reply _ _); reflexivity.
  - intros copy Hcopy. apply write_def_file_no_object; [exact Htarget|].
    rewrite Hcopy. reflexivity.
  - intros Hlive Hempty. subst whole. unfold outcome.
    destruct (link_after_prepare P reply getenv now_strftime uname_nodename
                self target objects output_filename output_dir libraries
                library_dirs runtime_library_dirs (Some symbols) debug
                extra_preargs extra_postargs build_temp target_lang st)
      as (pre & libs & objs & _ & _ & Hobjs & Hlink).
    rewrite cell_live in Hobjs by exact Hlive. rewrite Hempty in Hobjs.
    destruct (short_name P output_filename) as [[[name ext] name8]|e].
    + erewrite bind_raise in Hlink.
      2:{ apply write_def_file_no_object; [exact Htarget|].
          cbn [heap]. rewrite copies_lookup_2, Hobjs. reflexivity. }
      split; [apply trace_app|]; rewrite Hlink;
        [symmetry; apply app_nil_r|reflexivity].
    + split; [apply trace_app|]; rewrite Hlink;
        [symmetry; apply app_nil_r|reflexivity].
Qed.

(** C9: every list that exists when [link] is called, the caller's
    objects, libraries and pre-arguments among them, has the same content
    when [link] is left, whether it returns or raises: the implicit
    libraries, the definition-file path and [-s] go to the copies. *)
Theorem link_keeps_callers_lists (P : os_path)
    (reply : list call -> call -> option exn) (getenv : str -> option str)
    (now_strftime : str -> str) (uname_nodename : str) (self : Compiler)
    (target : target_desc) (objects : option addr) (output_filename : str)
    (output_dir : option str) (libraries : option addr)
    (library_dirs runtime_library_dirs : option (list str))
    (export_symbols : option (list str)) (debug : bool)
    (extra_preargs : option addr) (extra_postargs : option (list str))
    (build_temp target_lang : option str) (st : state)
    (a : addr) (l : list str) :
  st.(heap) !! a = Some l ->
  heap (snd (link P reply getenv now_strftime uname_nodename self target
               objects output_filename output_dir libraries library_dirs
               runtime_library_dirs export_symbols debug extra_preargs
               extra_postargs build_temp target_lang st)) !! a
  = Some l.
Proof.
  intros Hl.
  assert (Ha : (a < length st.(heap))%nat) by (eapply lookup_lt_Some; eauto).
  destruct (link_after_prepare P reply getenv now_strftime uname_nodename
              self target objects output_filename output_dir libraries
              library_dirs runtime_library_dirs export_symbols debug
              extra_preargs extra_postargs build_temp target_lang st)
    as (pre & libs & objs & _ & _ & _ & ->).
  destruct (short_name P output_filename) as [[[dll_name ext] name8]|e].
  - rewrite keeps_link_body by exact Ha.
    cbn [heap]. rewrite lookup_app_l by exact Ha. exact Hl.
  - cbn [snd heap]. rewrite lookup_app_l by exact Ha. exact Hl.
Qed.

(** ** Concrete runs *)

(** C1: for [verylongname.dll], whose stem has 12 characters, the
    specification's short stem is [ver1665] (the code points add up to
    1665), and that is what line 93 computes once [reduce] is resolved; but
    [reduce] is no name of the module, so the derivation, and with it the
    whole of [link], raises [NameError] before any outside call is made. *)
Theorem link_long_name_raises_NameError :
  let output_filename := lit "verylongname.dll" in
  let whole :=
    link Sample.px Sample.quiet Sample.no_env Sample.clock Sample.host
      Sample.self SHARED_LIBRARY (Some 0%nat) output_filename None
      (Some 1%nat) None None (Some [lit "initwidget"]) false (Some 2%nat)
      None None None in
  fst (Sample.px.(splitext) (Sample.px.(basename) output_filename))
  = lit "verylongname"
  /\ spec_short_stem Sample.px output_filename = lit "ver1665"
  /\ hashed_name_resolved Sample.px output_filename = OK (lit "ver1665")
  /\ short_name Sample.px output_filename = Raise (NameError "reduce")
  /\ outcome whole Sample.st0 = Raise (NameError "reduce")
  /\ trace whole Sample.st0 = [].
Proof. repeat split; vm_compute; reflexivity. Qed.

(** A link of [short.dll] with two exported symbols: the definition file
    is written next to the first object, its path joins the objects, the
    implicit library and [-s] are added, and no alias is made. *)
Example link_short_library_run :
  trace
    (link Sample.px Sample.quiet Sample.no_env Sample.clock Sample.host
       Sample.self SHARED_LIBRARY (Some 0%nat) (lit "out/short.dll") None
       (Some 1%nat) None None (Some [lit "init"; lit "fini"]) false
       (Some 2%nat) None None None)
    Sample.st0
  = [ execute_write_file (lit "build/short.def")
        [ lit "LIBRARY short INITINSTANCE TERMINSTANCE";
          lit "DESCRIPTION " ++ dquote
            ++ lit "@#python build system:0.0#@##1## 04 Nov 2026 12:00:00"
            ++ lit "     warpbox::::0::@@short" ++ dquote;
          lit "DATA MULTIPLE NONSHARED";
          lit "EXPORTS";
          lit "  " ++ dquote ++ lit "_init" ++ dquote;
          lit "  " ++ dquote ++ lit "_fini" ++ dquote ]
        (lit "writing build/short.def");
      super_link SHARED_LIBRARY
        [lit "build/a.o"; lit "build/b.o"; lit "build/short.def"]
        (lit "out/short.dll") None [lit "m"; lit "gcc"] None None None false
        [lit "-g"; lit "-s"] None None None ].
Proof. vm_compute. reflexivity. Qed.

(** A link of the executable [short.exe] given an export list: the only
    call is the underlying link step, on the caller's two objects. *)
Example link_executable_run :
  trace
    (link Sample.px Sample.quiet Sample.no_env Sample.clock Sample.host
       Sample.self EXECUTABLE (Some 0%nat) (lit "out/short.exe") None
       (Some 1%nat) None None (Some [lit "init"]) false (Some 2%nat)
       None None None)
    Sample.st0
  = [ super_link EXECUTABLE [lit "build/a.o"; lit "build/b.o"]
        (lit "out/short.exe") None [lit "m"; lit "gcc"] None None None false
        [lit "-g"; lit "-s"] None None None ].
Proof. vm_compute. reflexivity. Qed.

(** Compiling [widget.rc] runs the resource compiler, compiling
    [widget.c] runs the C compiler with [-o widget.o]. *)
Example compile_widget_runs :
  trace (_compile Sample.quiet Sample.self (lit "widget.res")
           (lit "widget.rc") (lit ".rc") [lit "-c"] [] []) Sample.st0
  = [spawn [lit "rc"; lit "-r"; lit "widget.rc"]]
  /\ trace (_compile Sample.quiet Sample.self (lit "widget.o")
              (lit "widget.c") (lit ".c") [lit "-c"] [] []) Sample.st0
     = [spawn [lit "gcc"; lit "-O2"; lit "-c"; lit "widget.c"; lit "-o";
               lit "widget.o"]].
Proof. split; vm_compute; reflexivity. Qed.

Lemma write_def_file_lines_witness :
  SHARED_LIBRARY <> EXECUTABLE
  /\ Sample.st0.(heap) !! 0%nat = Some [lit "build/a.o"; lit "build/b.o"]
  /\ trace (write_def_file Sample.px Sample.quiet Sample.no_env Sample.clock
              Sample.host Sample.self SHARED_LIBRARY
              (Some [lit "init"; lit "fini"]) (lit "verylongname")
              (lit "ver1665") 0%nat) Sample.st0
     = [ execute_write_file (lit "build/verylongname.def")
           [ lit "LIBRARY ver1665 INITINSTANCE TERMINSTANCE";
             lit "DESCRIPTION " ++ dquote
               ++ lit "@#python build system:0.0#@##1## 04 Nov 2026 12:00:00"
               ++ lit "     warpbox::::0::@@verylongname" ++ dquote;
             lit "DATA MULTIPLE NONSHARED";
             lit "EXPORTS";
             lit "  " ++ dquote ++ lit "_init" ++ dquote;
             lit "  " ++ dquote ++ lit "_fini" ++ dquote ]
           (lit "writing build/verylongname.def") ].
Proof.
  assert (Htarget : SHARED_LIBRARY <> EXECUTABLE) by discriminate.
  assert (Hobjects :
    Sample.st0.(heap) !! 0%nat = Some [lit "build/a.o"; lit "build/b.o"])
    by reflexivity.
  split; [exact Htarget|split; [exact Hobjects|]].
  exact (proj1 (write_def_file_lines Sample.px Sample.quiet Sample.no_env
                  Sample.clock Sample.host Sample.self SHARED_LIBRARY
                  [lit "init"; lit "fini"] (lit "verylongname")
                  (lit "ver1665") 0%nat Sample.st0 (lit "build/a.o")
                  [lit "build/b.o"] Htarget Hobjects)).
Defined.

Lemma link_def_file_only_for_exports_of_non_executable_witness :
  live Sample.st0.(heap) (Some 0%nat)
  /\ Forall
       (fun c =>
          is_write_file c = false
          /\ forall linked,
               linked_objects c = Some linked ->
               linked = [lit "build/a.o"; lit "build/b.o"])
       (trace
          (link Sample.px Sample.quiet Sample.no_env Sample.clock Sample.host
             Sample.self EXECUTABLE (Some 0%nat) (lit "out/short.exe") None
             (Some 1%nat) None None (Some [lit "init"]) false (Some 2%nat)
             None None None)
          Sample.st0).
Proof.
  assert (Hlive : live Sample.st0.(heap) (Some 0%nat)) by (simpl; lia).
  split; [exact Hlive|].
  exact (proj1 (link_def_file_only_for_exports_of_non_executable Sample.px
                  Sample.quiet Sample.no_env Sample.clock Sample.host
                  Sample.self EXECUTABLE (Some 0%nat) (lit "out/short.exe")
                  None (Some 1%nat) None None (Some [lit "init"]) false
                  (Some 2%nat) None None None Sample.st0 Hlive)).
Defined.

Lemma write_def_file_needs_first_object_witness :
  SHARED_LIBRARY <> EXECUTABLE
  /\ live Sample.st0.(heap) None
  /\ cell Sample.st0.(heap) None = []
  /\ trace
       (link Sample.px Sample.quiet Sample.no_env Sample.clock Sample.host
          Sample.self SHARED_LIBRARY None (lit "out/short.dll") None
          (Some 1%nat) None None (Some [lit "init"]) false (Some 2%nat)
          None None None)
       Sample.st0
     = []
  /\ outcome
       (link Sample.px Sample.quiet Sample.no_env Sample.clock Sample.host
          Sample.self SHARED_LIBRARY None (lit "out/short.dll") None
          (Some 1%nat) None None (Some [lit "init"]) false (Some 2%nat)
          None None None)
       Sample.st0
     = Raise IndexError.
Proof.
  assert (Htarget : SHARED_LIBRARY <> EXECUTABLE) by discriminate.
  assert (Hlive : live Sample.st0.(heap) None) by exact I.
  assert (Hempty : cell Sample.st0.(heap) None = []) by reflexivity.
  split; [exact Htarget|split; [exact Hlive|split; [exact Hempty|]]].
  exact (proj2 (proj2
           (write_def_file_needs_first_object Sample.px Sample.quiet
              Sample.no_env Sample.clock Sample.host Sample.self
              SHARED_LIBRARY None (lit "out/short.dll") None (Some 1%nat)
              None None [lit "init"] false (Some 2%nat) None None None
              (lit "short") (lit "short") Sample.st0 Htarget))
           Hlive Hempty).
Defined.

Lemma link_keeps_callers_lists_witness :
  Sample.st0.(heap) !! 0%nat = Some [lit "build/a.o"; lit "build/b.o"]
  /\ heap (snd
       (link Sample.px Sample.quiet Sample.no_env Sample.clock Sample.host
          Sample.self SHARED_LIBRARY (Some 0%nat) (lit "out/short.dll") None
          (Some 1%nat) None None (Some [lit "init"; lit "fini"]) false
          (Some 2%nat) None None None Sample.st0)) !! 0%nat
     = Some [lit "build/a.o"; lit "build/b.o"].
Proof.
  assert (Hobjects :
    Sample.st0.(heap) !! 0%nat = Some [lit "build/a.o"; lit "build/b.o"])
    by reflexivity.
  split; [exact Hobjects|].
  exact (link_keeps_callers_lists Sample.px Sample.quiet Sample.no_env
           Sample.clock Sample.host Sample.self SHARED_LIBRARY (Some 0%nat)
           (lit "out/short.dll") None (Some 1%nat) None None
           (Some [lit "init"; lit "fini"]) false (Some 2%nat) None None None
           Sample.st0 0%nat [lit "build/a.o"; lit "build/b.o"] Hobjects).
Defined.

(** * Further properties *)

(** ** Substrings *)

Lemma startswith_spec (needle hay : str) :
  startswith needle hay = true <-> exists post, hay = needle ++ post.
Proof.
  revert hay. induction needle as [|c needle IH]; intros hay; simpl.
  - split; [intros _; exists hay; reflexivity|reflexivity].
  - destruct hay as [|d hay].
    + split; [discriminate|]. intros [post Hpost]. discriminate.
    + rewrite andb_true_iff, N.eqb_eq, IH. split.
      * intros [-> [post ->]]. exists post. reflexivity.
      * intros [post [= -> ->]]. split; [reflexivity|]. exists post.
        reflexivity.
Qed.

Lemma str_contains_spec (needle hay : str) :
  str_contains needle hay = true
  <-> exists pre post, hay = pre ++ needle ++ post.
Proof.
  induction hay as [|d hay IH]; simpl.
  - rewrite orb_false_r, startswith_spec. split.
    + intros [post Hpost]. exists [], post. exact Hpost.
    + intros (pre & post & Heq). destruct pre as [|c pre]; [|discriminate].
      exists post. exact Heq.
  - rewrite orb_true_iff, startswith_spec, IH. split.
    + intros [[post Hpost]|(pre & post & ->)].
      * exists [], post. exact Hpost.
      * exists (d :: pre), post. reflexivity.
    + intros (pre & post & Heq). destruct pre as [|c pre].
      * left. exists post. exact Heq.
      * right. injection Heq as -> ->. exists pre, post. reflexivity.
Qed.

(** ** The probe of the configuration header *)

Section ProbeFacts.

Context (sys_version get_config_h_filename : str).
Context (read_text : str -> result str).
Context (strerror : errno -> str) (repr : str -> str).

Lemma check_config_h_cases :
  let probe :=
    check_config_h sys_version get_config_h_filename read_text strerror
      repr in
  (str_contains (lit "GCC") sys_version = true
   /\ probe = OK (CONFIG_H_OK, lit "sys.version mentions 'GCC'"))
  \/ (str_contains (lit "GCC") sys_version = false
      /\ exists text,
           read_text get_config_h_filename = OK text
           /\ str_contains (lit "__GNUC__") text = true
           /\ probe
              = OK (CONFIG_H_OK,
                    repr get_config_h_filename ++ lit " mentions "
                      ++ repr (lit "__GNUC__")))
  \/ (str_contains (lit "GCC") sys_version = false
      /\ exists text,
           read_text get_config_h_filename = OK text
           /\ str_contains (lit "__GNUC__") text = false
           /\ probe
              = OK (CONFIG_H_NOTOK,
                    repr get_config_h_filename ++ lit " does not mention "
                      ++ repr (lit "__GNUC__")))
  \/ (str_contains (lit "GCC") sys_version = false
      /\ exists exc,
           read_text get_config_h_filename = Raise (OSError exc)
           /\ probe
              = OK (CONFIG_H_UNCERTAIN,
                    lit "couldn't read '" ++ get_config_h_filename
                      ++ lit "': " ++ strerror exc))
  \/ (str_contains (lit "GCC") sys_version = false
      /\ exists e,
           read_text get_config_h_filename = Raise e
           /\ isinstance_OSError e = false
           /\ probe = Raise e).
Proof.
  intros probe. subst probe. unfold check_config_h.
  destruct (str_contains (lit "GCC") sys_version); [left; split; reflexivity|].
  right.
  destruct (read_text get_config_h_filename) as [text|e] eqn:Hread.
  - destruct (str_contains (lit "__GNUC__") text) eqn:Hgnuc.
    + left. split; [reflexivity|]. exists text. repeat split; assumption.
    + right. left. split; [reflexivity|]. exists text.
      repeat split; assumption.
  - right. right.
    destruct e; try (right; split; [reflexivity|]; eexists;
                     repeat split; reflexivity).
    left. split; [reflexivity|]. eexists. split; reflexivity.
Qed.

(** X1: the probe answers "ok" exactly when the version banner contains
    [GCC] or the configuration header can be read and contains
    [__GNUC__]. *)
Theorem check_config_h_ok_iff :
  (exists details,
      check_config_h sys_version get_config_h_filename read_text strerror
        repr
      = OK (CONFIG_H_OK, details))
  <-> (exists pre post, sys_version = pre ++ lit "GCC" ++ post)
      \/ (exists text pre post,
             read_text get_config_h_filename = OK text
             /\ text = pre ++ lit "__GNUC__" ++ post).
Proof.
  pose proof check_config_h_cases as Hcases. cbv zeta in Hcases.
  split.
  - intros [details Hok].
    destruct Hcases as [[Hgcc _]|[(_ & text & Hread & Hgnuc & _)
      |[(_ & text & _ & _ & Hp)|[(_ & exc & _ & Hp)|(_ & e & _ & _ & Hp)]]]].
    + left. apply str_contains_spec. exact Hgcc.
    + right. apply str_contains_spec in Hgnuc as (pre & post & Htext).
      exists text, pre, post. split; [exact Hread|exact Htext].
    + rewrite Hp in Hok. discriminate.
    + rewrite Hp in Hok. discriminate.
    + rewrite Hp in Hok. discriminate.
  - intros Hwhy. unfold check_config_h.
    destruct (str_contains (lit "GCC") sys_version) eqn:Hgcc;
      [eexists; reflexivity|].
    destruct Hwhy as [Hbanner|(text & pre & post & Hread & Htext)].
    + apply str_contains_spec in Hbanner. congruence.
    + rewrite Hread.
      assert (Hin : str_contains (lit "__GNUC__") text = true)
        by (apply str_contains_spec; eauto).
      rewrite Hin. eexists. reflexivity.
Qed.

(** X2: the probe answers "uncertain" exactly when the banner does not
    contain [GCC] and reading the header fails with an [OSError]; its
    details then quote the file name and the error's text. *)
Theorem check_config_h_uncertain_iff (details : str) :
  check_config_h sys_version get_config_h_filename read_text strerror repr
  = OK (CONFIG_H_UNCERTAIN, details)
  <-> str_contains (lit "GCC") sys_version = false
      /\ exists exc,
           read_text get_config_h_filename = Raise (OSError exc)
           /\ details
              = lit "couldn't read '" ++ get_config_h_filename
                  ++ lit "': " ++ strerror exc.
Proof.
  pose proof check_config_h_cases as Hcases. cbv zeta in Hcases.
  split.
  - intros Hun.
    destruct Hcases as [[_ Hp]|[(_ & text & _ & _ & Hp)
      |[(_ & text & _ & _ & Hp)|[(Hgcc & exc & Hread & Hp)
      |(_ & e & _ & _ & Hp)]]]];
      rewrite Hp in Hun; try discriminate.
    injection Hun as <-. split; [exact Hgcc|]. exists exc.
    split; [exact Hread|reflexivity].
  - intros (Hgcc & exc & Hread & ->).
    unfold check_config_h. rewrite Hgcc, Hread. reflexivity.
Qed.

(** X3: the probe itself fails exactly when the banner does not contain
    [GCC] and reading the header fails with something that is not an
    [OSError]; it then fails with that very exception.  An [OSError] never
    leaves the probe. *)
Theorem check_config_h_raises_iff (e : exn) :
  check_config_h sys_version get_config_h_filename read_text strerror repr
  = Raise e
  <-> str_contains (lit "GCC") sys_version = false
      /\ read_text get_config_h_filename = Raise e
      /\ isinstance_OSError e = false.
Proof.
  pose proof check_config_h_cases as Hcases. cbv zeta in Hcases.
  split.
  - intros Hraise.
    destruct Hcases as [[_ Hp]|[(_ & text & _ & _ & Hp)
      |[(_ & text & _ & _ & Hp)|[(_ & exc & _ & Hp)
      |(Hgcc & e' & Hread & Hnot & Hp)]]]];
      rewrite Hp in Hraise; try discriminate.
    injection Hraise as <-. repeat split; assumption.
  - intros (Hgcc & Hread & Hnot).
    unfold check_config_h. rewrite Hgcc, Hread.
    destruct e; try reflexivity. discriminate.
Qed.

(** X4: when the probe returns, the constructor completes: it calls the
    base constructor first, reports the status, and reads [CC] and [CXX]
    last; it warns, once, exactly when the status is not "ok", that is when
    neither the banner contains [GCC] nor a readable header contains
    [__GNUC__].  When the probe fails, the constructor fails the same
    way. *)
Theorem init_warns_unless_ok (verbose dry_run force : bool) :
  match __init__ sys_version get_config_h_filename read_text strerror repr
          verbose dry_run force with
  | OK calls =>
      exists status details warning,
        check_config_h sys_version get_config_h_filename read_text
          strerror repr
        = OK (status, details)
        /\ calls
           = [ super_init verbose dry_run force;
               debug_print (lit "Python's GCC status: " ++ status
                              ++ lit " (details: " ++ details ++ lit ")") ]
             ++ warning ++ [ get_config_vars [lit "CC"; lit "CXX"] ]
        /\ ((exists pre post, sys_version = pre ++ lit "GCC" ++ post)
            \/ (exists text pre post,
                   read_text get_config_h_filename = OK text
                   /\ text = pre ++ lit "__GNUC__" ++ post)
            -> warning = [])
        /\ (~ ((exists pre post, sys_version = pre ++ lit "GCC" ++ post)
               \/ (exists text pre post,
                      read_text get_config_h_filename = OK text
                      /\ text = pre ++ lit "__GNUC__" ++ post))
            -> exists msg, warning = [warn msg])
  | Raise e =>
      check_config_h sys_version get_config_h_filename read_text strerror
        repr
      = Raise e
  end.
Proof.
  unfold __init__.
  destruct (check_config_h sys_version get_config_h_filename read_text
              strerror repr) as [[status details]|e] eqn:Hprobe;
    [|reflexivity].
  cbn [rbind].
  pose proof check_config_h_ok_iff as Hok. rewrite Hprobe in Hok.
  destruct (decide (status = CONFIG_H_OK)) as [->|Hne].
  - rewrite bool_decide_eq_false_2 by (intros H; apply H; reflexivity).
    exists CONFIG_H_OK, details, []. repeat split.
    intros Hnot. exfalso. apply Hnot, Hok. exists details. reflexivity.
  - rewrite bool_decide_eq_true_2 by exact Hne.
    eexists status, details, [_]. repeat split.
    + intros Hwhy. apply Hok in Hwhy as [details' [= Hs _]]. contradiction.
    + intros _. eexists. reflexivity.
Qed.

End ProbeFacts.

(** ** File name mapping, continued *)

Section MapperFacts.

Context (P : os_path) (self : Compiler).

Lemma object_filename_recognised (strip_dir : bool)
    (output_dir src_name : str) :
  snd (P.(splitext) src_name) ∈ self.(src_extensions) ++ _rc_extensions ->
  object_filename P self strip_dir output_dir src_name
  = OK (let (base, ext) := P.(splitext) src_name in
        let base := snd (P.(splitdrive) base) in
        let base := drop (if P.(isabs) base then 1%nat else 0%nat) base in
        let base := if strip_dir then P.(basename) base else base in
        P.(join) output_dir
          (base ++ if bool_decide (ext ∈ _rc_extensions)
                   then res_extension else obj_extension)).
Proof.
  intros Hext. unfold object_filename.
  destruct (P.(splitext) src_name) as [base ext]; simpl in *.
  rewrite bool_decide_eq_true_2 by assumption. simpl.
  destruct (bool_decide (ext ∈ _rc_extensions)); reflexivity.
Qed.

Lemma object_filenames_all_recognised (sources : list str)
    (strip_dir : bool) (output_dir : option str) :
  Forall
    (fun src_name =>
       snd (P.(splitext) src_name)
         ∈ self.(src_extensions) ++ _rc_extensions)
    sources ->
  object_filenames P self sources strip_dir output_dir
  = OK (map
          (fun src_name =>
             let (base, ext) := P.(splitext) src_name in
             let base := snd (P.(splitdrive) base) in
             let base :=
               drop (if P.(isabs) base then 1%nat else 0%nat) base in
             let base := if strip_dir then P.(basename) base else base in
             P.(join) (default [] output_dir)
               (base ++ if bool_decide (ext ∈ _rc_extensions)
                        then res_extension else obj_extension))
          sources).
Proof.
  intros Hall. unfold object_filenames.
  replace (match output_dir with None => [] | Some d => d end)
    with (default [] output_dir) by (destruct output_dir; reflexivity).
  generalize (default [] output_dir). intros out.
  change (map _ sources) with ([] ++ map
    (fun src_name =>
       let (base, ext) := P.(splitext) src_name in
       let base := snd (P.(splitdrive) base) in
       let base := drop (if P.(isabs) base then 1%nat else 0%nat) base in
       let base := if strip_dir then P.(basename) base else base in
       P.(join) out
         (base ++ if bool_decide (ext ∈ _rc_extensions)
                  then res_extension else obj_extension)) sources).
  generalize (@nil str) as obj_names.
  induction Hall as [|src rest Hsrc Hrest IH]; intros obj_names; simpl.
  - rewrite app_nil_r. reflexivity.
  - rewrite object_filename_recognised by exact Hsrc. simpl.
    rewrite IH, <- app_assoc. reflexivity.
Qed.

(** X5: when every source has a source or resource-script extension,
    [object_filenames] returns one name per source, in the order of the
    sources: the base (drive removed, one leading separator removed when
    absolute, directories removed when [strip_dir]) with [.res] for a
    resource script and [.o] otherwise, joined to the output directory
    ([None] standing for the empty one). *)
Theorem object_filenames_maps_each_source (sources : list str)
    (strip_dir : bool) (output_dir : option str) :
  Forall
    (fun src_name =>
       snd (P.(splitext) src_name)
         ∈ self.(src_extensions) ++ _rc_extensions)
    sources ->
  object_filenames P self sources strip_dir output_dir
  = OK (map
          (fun src_name =>
             let (base, ext) := P.(splitext) src_name in
             let base := snd (P.(splitdrive) base) in
             let base :=
               drop (if P.(isabs) base then 1%nat else 0%nat) base in
             let base := if strip_dir then P.(basename) base else base in
             P.(join) (default [] output_dir)
               (base ++ if bool_decide (ext ∈ _rc_extensions)
                        then res_extension else obj_extension))
          sources).
Proof. apply object_filenames_all_recognised. Qed.

(** X6: [object_filenames] returns a list exactly when every source has
    a source or resource-script extension; one source of another kind
    makes the whole call fail, whatever its place in the list. *)
Theorem object_filenames_returns_iff (sources : list str)
    (strip_dir : bool) (output_dir : option str) :
  (exists obj_names,
      object_filenames P self sources strip_dir output_dir = OK obj_names)
  <-> Forall
        (fun src_name =>
           snd (P.(splitext) src_name)
             ∈ self.(src_extensions) ++ _rc_extensions)
        sources.
Proof.
  split.
  - intros [obj_names Hok].
    destruct (decide (Forall
      (fun src_name =>
         snd (P.(splitext) src_name)
           ∈ self.(src_extensions) ++ _rc_extensions) sources))
      as [Hall|Hnot]; [exact Hall|].
    exfalso. apply not_Forall_Exists in Hnot; [|intros x; apply _].
    apply Exists_exists in Hnot as (bad & Hin & Hbad).
    unfold object_filenames in Hok.
    rewrite object_filenames_loop_unrecognised in Hok; [discriminate|].
    exists bad. split; assumption.
  - intros Hall. eexists.
    apply object_filenames_all_recognised. exact Hall.
Qed.

End MapperFacts.

(** ** Library search, continued *)

Lemma find_library_file_find (P : os_path) (environ : str -> option str)
    (file_exists : str -> bool) (dirs : list str) (lib : str) (debug : bool) :
  find_library_file P environ file_exists dirs lib debug
  = OK (find file_exists
          (spec_candidates P
             (dirs ++ match environ (lit "LIBRARY_PATH") with
                      | Some v => split 59 v
                      | None => []
                      end)
             lib)).
Proof.
  unfold find_library_file, emx_dirs, environ_getitem, spec_candidates.
  destruct (environ (lit "LIBRARY_PATH")); simpl;
    rewrite find_in_dirs_find; reflexivity.
Qed.

(** X7: a library found in the caller's directories is returned whatever
    [LIBRARY_PATH] holds: the environment is only consulted for libraries
    the caller's directories do not have. *)
Theorem find_library_file_caller_dirs_first (P : os_path)
    (environ : str -> option str) (file_exists : str -> bool)
    (dirs : list str) (lib : str) (debug : bool) (libfile : str) :
  find file_exists (spec_candidates P dirs lib) = Some libfile ->
  find_library_file P environ file_exists dirs lib debug = OK (Some libfile).
Proof.
  intros Hfound. rewrite find_library_file_find.
  unfold spec_candidates in *.
  rewrite flat_map_app, find_app_split, Hfound. reflexivity.
Qed.

Lemma find_library_file_caller_dirs_first_witness :
  let file_exists p := bool_decide (p = lit "mylibs/z.a") in
  find file_exists (spec_candidates Sample.px [lit "mylibs"] (lit "z"))
  = Some (lit "mylibs/z.a")
  /\ find_library_file Sample.px (fun _ => Some (lit "/emx/lib;/usr/lib"))
       file_exists [lit "mylibs"] (lit "z") false
     = OK (Some (lit "mylibs/z.a")).
Proof.
  intros file_exists.
  assert (Hfound :
    find file_exists (spec_candidates Sample.px [lit "mylibs"] (lit "z"))
    = Some (lit "mylibs/z.a")) by (vm_compute; reflexivity).
  split; [exact Hfound|].
  exact (find_library_file_caller_dirs_first Sample.px
           (fun _ => Some (lit "/emx/lib;/usr/lib")) file_exists
           [lit "mylibs"] (lit "z") false (lit "mylibs/z.a") Hfound).
Defined.

(** [split] and [str_join] are inverse to each other on the pieces. *)
Lemma split_nonempty (sep : N) (s : str) : split sep s <> [].
Proof.
  destruct s as [|c s]; simpl; [discriminate|].
  destruct (c =? sep); [discriminate|].
  destruct (split sep s); discriminate.
Qed.

Lemma str_join_split (sep : N) (s : str) : str_join sep (split sep s) = s.
Proof.
  induction s as [|c s IH]; simpl; [reflexivity|].
  pose proof (split_nonempty sep s) as Hne.
  destruct (N.eqb_spec c sep) as [->|Hc].
  - destruct (split sep s) as [|w ws]; [contradiction|].
    simpl in *. rewrite IH. reflexivity.
  - destruct (split sep s) as [|w ws]; [contradiction|].
    destruct ws as [|w' ws]; simpl in *; rewrite <- IH; reflexivity.
Qed.

Lemma split_pieces_free (sep : N) (s : str) :
  Forall (fun piece => sep ∉ piece) (split sep s).
Proof.
  induction s as [|c s IH]; simpl.
  - constructor; [|constructor]. intros H. inversion H.
  - destruct (N.eqb_spec c sep) as [->|Hc].
    + constructor; [|exact IH]. intros H. inversion H.
    + destruct (split sep s) as [|w ws].
      * constructor; [|constructor]. intros H.
        apply elem_of_cons in H as [H|H]; [congruence|inversion H].
      * inversion IH as [|? ? Hw Hws]; subst.
        constructor; [|exact Hws]. intros H.
        apply elem_of_cons in H as [H|H]; [congruence|contradiction].
Qed.

(** X8: when [LIBRARY_PATH] is set, the directories taken from it are its
    pieces between semicolons: there is at least one, none contains a
    semicolon, and joining them with semicolons gives the variable back;
    so an empty variable contributes the one directory whose name is
    empty. *)
Theorem emx_dirs_are_the_pieces (environ : str -> option str) (v : str) :
  environ (lit "LIBRARY_PATH") = Some v ->
  exists dirs,
    emx_dirs environ = OK dirs
    /\ dirs <> []
    /\ Forall (fun dir => 59 ∉ dir) dirs
    /\ str_join 59 dirs = v
    /\ (v = [] -> dirs = [[]]).
Proof.
  intros Hv. exists (split 59 v).
  unfold emx_dirs, environ_getitem. rewrite Hv.
  split; [reflexivity|]. split; [apply split_nonempty|].
  split; [apply split_pieces_free|]. split; [apply str_join_split|].
  intros ->. reflexivity.
Qed.

Lemma emx_dirs_are_the_pieces_witness :
  let environ := fun _ : str => Some (lit "/emx/lib;;/usr/lib") in
  environ (lit "LIBRARY_PATH") = Some (lit "/emx/lib;;/usr/lib")
  /\ exists dirs,
       emx_dirs environ = OK dirs
       /\ dirs <> []
       /\ Forall (fun dir => 59 ∉ dir) dirs
       /\ str_join 59 dirs = lit "/emx/lib;;/usr/lib"
       /\ (lit "/emx/lib;;/usr/lib" = [] -> dirs = [[]]).
Proof.
  intros environ.
  assert (Hv : environ (lit "LIBRARY_PATH") = Some (lit "/emx/lib;;/usr/lib"))
    by reflexivity.
  split; [exact Hv|].
  exact (emx_dirs_are_the_pieces environ (lit "/emx/lib;;/usr/lib") Hv).
Defined.

(** ** The driver's own library names *)

Lemma percent_lib_format (name ext : str) :
  percent (lit "lib%s%s") [name; ext] = lit "lib" ++ name ++ ext.
Proof.
  transitivity (lit "lib" ++ name ++ ext ++ []); [reflexivity|].
  rewrite app_nil_r. reflexivity.
Qed.

Lemma percent_plain_format (name ext : str) :
  percent (lit "%s%s") [name; ext] = name ++ ext.
Proof.
  transitivity (name ++ ext ++ []); [reflexivity|].
  rewrite app_nil_r. reflexivity.
Qed.

(** X9: the names the driver's own formats give to a static library
    ([lib<name>.a]) and to an import library ([lib<name>_dll.a]) are among
    the six variants [find_library_file] tries for [<name>]; the name its
    format gives to the dynamic library itself ([<name>.dll]) is not. *)
Theorem driver_library_names_are_searched (name : str) :
  (percent static_lib_format [name; static_lib_extension]
     ∈ try_names name)
  /\ (percent shared_lib_format [name; shared_lib_extension]
        ∈ try_names name)
  /\ (percent dylib_lib_format [name; dylib_lib_extension]
        ∉ try_names name).
Proof.
  unfold static_lib_format, shared_lib_format, dylib_lib_format,
    static_lib_extension, shared_lib_extension, dylib_lib_extension.
  rewrite !percent_lib_format, percent_plain_format.
  unfold try_names. split; [|split].
  - do 4 (apply elem_of_cons; right). apply elem_of_cons. left. reflexivity.
  - do 5 (apply elem_of_cons; right). apply elem_of_cons. left. reflexivity.
  - intros Hin.
    repeat (apply elem_of_cons in Hin as [Hin|Hin]);
      try (apply app_inv_head in Hin; discriminate);
      try (apply (f_equal length) in Hin; rewrite !length_app in Hin;
           unfold lit in Hin; cbn in Hin; lia).
    inversion Hin.
Qed.

(** ** Compile dispatch, continued *)

Lemma compile_run (reply : list call -> call -> option exn)
    (self : Compiler) (obj src ext : str)
    (cc_args extra_postargs pp_opts : list str) (st : state) :
  let cmd :=
    if bool_decide (ext = lit ".rc") then [lit "rc"; lit "-r"; src]
    else self.(compiler_so) ++ cc_args ++ [src; lit "-o"; obj]
           ++ extra_postargs in
  _compile reply self obj src ext cc_args extra_postargs pp_opts st
  = (match reply st.(log) (spawn cmd) with
     | None => OK tt
     | Some (DistutilsExecError msg) => Raise (CompileError msg)
     | Some e => Raise e
     end,
     State st.(heap) (st.(log) ++ [spawn cmd])).
Proof.
  intros cmd. subst cmd. unfold _compile.
  destruct (bool_decide (ext = lit ".rc"));
    unfold try_except, perform; cbn [heap log];
    (destruct (reply _ _) as [e|]; [destruct e|]; reflexivity).
Qed.

(** X10: [_compile] starts exactly one tool, whatever the extension and
    whatever the tool does, and leaves every list as it is.  It returns
    when the tool returns; a [DistutilsExecError] of the tool becomes a
    [CompileError] with the same message, so that [_compile] never raises
    [DistutilsExecError]; any other exception of the tool passes
    unchanged. *)
Theorem compile_spawns_once_and_wraps_failure
    (reply : list call -> call -> option exn)
    (self : Compiler) (obj src ext : str)
    (cc_args extra_postargs pp_opts : list str) (st : state) :
  let run := _compile reply self obj src ext cc_args extra_postargs pp_opts in
  exists cmd,
    trace run st = [spawn cmd]
    /\ heap (snd (run st)) = st.(heap)
    /\ outcome run st
       = match reply st.(log) (spawn cmd) with
         | None => OK tt
         | Some (DistutilsExecError msg) => Raise (CompileError msg)
         | Some e => Raise e
         end
    /\ forall msg, outcome run st <> Raise (DistutilsExecError msg).
Proof.
  intros run. subst run. unfold outcome.
  pose proof (compile_run reply self obj src ext cc_args extra_postargs
                pp_opts st) as Hrun.
  cbv zeta in Hrun. eexists. rewrite Hrun. cbn [fst snd heap].
  split; [apply trace_app; rewrite Hrun; reflexivity|].
  split; [reflexivity|]. split; [reflexivity|].
  intros msg. destruct (reply _ _) as [e|]; [destruct e|]; discriminate.
Qed.

(** ** The alias stage, continued *)

(** X11: for a stem of at most 8 characters the alias stage does
    nothing.  For a longer stem, when the removal of the long name
    returns, the stage has removed first and then made the link from the
    long name to the 8 character file name (without directory); the
    outcome of the stage is the outcome of that link. *)
Theorem alias_long_name_removes_then_links
    (reply : list call -> call -> option exn)
    (dll_name dll_name8 dll_extension output_filename : str) (st : state) :
  let stage :=
    alias_long_name reply dll_name dll_name8 dll_extension output_filename in
  let removal := os_remove output_filename in
  let alias := os_symlink (dll_name8 ++ dll_extension) output_filename in
  ((length dll_name <= 8)%nat -> stage st = (OK tt, st))
  /\ ((8 < length dll_name)%nat ->
      reply st.(log) removal = None ->
      trace stage st = [removal; alias]
      /\ outcome stage st
         = match reply (st.(log) ++ [removal]) alias with
           | None => OK tt
           | Some e => Raise e
           end).
Proof.
  intros stage removal alias. subst stage. split.
  - apply alias_long_name_short.
  - intros Hlen Hreply. unfold outcome.
    pose proof (alias_long_name_run reply dll_name dll_name8 dll_extension
                  output_filename st Hlen) as Hrun.
    cbv zeta in Hrun. fold removal alias in Hrun. rewrite Hreply in Hrun.
    split; [apply trace_app|]; rewrite Hrun;
      destruct (reply (log st ++ _) _); reflexivity.
Qed.

(** X17: in the alias stage taken on its own (lines 167-173), for a stem
    of more than 8 characters, a removal that fails with an [OSError] of
    any kind (absence, but also a refusal or a directory in the way) is
    swallowed and the alias is attempted all the same; a removal that
    fails with anything else is the failure of the stage, and no alias is
    attempted. *)
Theorem alias_long_name_swallows_every_OSError
    (reply : list call -> call -> option exn)
    (dll_name dll_name8 dll_extension output_filename : str) (st : state)
    (e : exn) :
  (8 < length dll_name)%nat ->
  reply st.(log) (os_remove output_filename) = Some e ->
  let removal := os_remove output_filename in
  let alias := os_symlink (dll_name8 ++ dll_extension) output_filename in
  let stage :=
    alias_long_name reply dll_name dll_name8 dll_extension output_filename in
  if isinstance_OSError e then
    trace stage st = [removal; alias]
    /\ outcome stage st
       = match reply (st.(log) ++ [removal]) alias with
         | None => OK tt
         | Some e' => Raise e'
         end
  else
    trace stage st = [removal] /\ outcome stage st = Raise e.
Proof.
  intros Hlen Hreply removal alias stage.
  unfold outcome. subst stage.
  pose proof (alias_long_name_run reply dll_name dll_name8 dll_extension
                output_filename st Hlen) as Hrun.
  cbv zeta in Hrun. rewrite Hreply in Hrun.
  destruct (isinstance_OSError e).
  - split; [apply trace_app|]; rewrite Hrun;
      destruct (reply (log st ++ _) _); reflexivity.
  - split; [apply trace_app|]; rewrite Hrun; reflexivity.
Qed.

Lemma alias_long_name_swallows_every_OSError_witness :
  (8 < length (lit "verylongname"))%nat
  /\ Sample.denied Sample.st0.(log) (os_remove (lit "verylongname.dll"))
     = Some (OSError EACCES)
  /\ trace (alias_long_name Sample.denied (lit "verylongname")
              (lit "ver1665") (lit ".dll") (lit "verylongname.dll"))
       Sample.st0
     = [ os_remove (lit "verylongname.dll");
         os_symlink (lit "ver1665.dll") (lit "verylongname.dll") ]
  /\ outcome (alias_long_name Sample.denied (lit "verylongname")
                (lit "ver1665") (lit ".dll") (lit "verylongname.dll"))
       Sample.st0
     = OK tt.
Proof.
  assert (Hlen : (8 < length (lit "verylongname"))%nat) by (vm_compute; lia).
  assert (Hreply :
    Sample.denied Sample.st0.(log) (os_remove (lit "verylongname.dll"))
    = Some (OSError EACCES)) by reflexivity.
  split; [exact Hlen|split; [exact Hreply|]].
  exact (alias_long_name_swallows_every_OSError Sample.denied
           (lit "verylongname") (lit "ver1665") (lit ".dll")
           (lit "verylongname.dll") Sample.st0 (OSError EACCES)
           Hlen Hreply).
Defined.

(** ** The whole of [link], continued *)

Lemma copies_lookup_0 (h : list (list str)) (a b c : list str) :
  (h ++ [a; b; c]) !! length h = Some a.
Proof.
  rewrite lookup_app_r by lia.
  replace (length h - length h)%nat with 0%nat by lia. reflexivity.
Qed.

Lemma copies_lookup_1 (h : list (list str)) (a b c : list str) :
  (h ++ [a; b; c]) !! S (length h) = Some b.
Proof.
  rewrite lookup_app_r by lia.
  replace (S (length h) - length h)%nat with 1%nat by lia. reflexivity.
Qed.

Lemma copies_insert_0 (h : list (list str)) (a b c x : list str) :
  <[length h := x]> (h ++ [a; b; c]) = h ++ [x; b; c].
Proof.
  replace (length h) with (length h + 0)%nat at 1 by lia.
  rewrite insert_app_r. reflexivity.
Qed.

Lemma copies_insert_2 (h : list (list str)) (a b c x : list str) :
  <[S (S (length h)) := x]> (h ++ [a; b; c]) = h ++ [a; b; x].
Proof.
  replace (S (S (length h))) with (length h + 2)%nat by lia.
  rewrite insert_app_r. reflexivity.
Qed.

(** What [link] does after the definition-file block, for a stem of at
    most 8 characters, from a state whose last three lists are the
    copies. *)
Lemma link_tail_run (P : os_path) (reply : list call -> call -> option exn)
    (target : target_desc) (output_filename : str)
    (output_dir : option str)
    (library_dirs runtime_library_dirs : option (list str)) (debug : bool)
    (extra_postargs : option (list str)) (build_temp target_lang : option str)
    (dll_name dll_extension dll_name8 : str)
    (h : list (list str)) (pre libs objs : list str) (calls : list call) :
  (length dll_name <= 8)%nat ->
  let pre' := pre ++ (if debug then [] else [lit "-s"]) in
  let linking :=
    super_link target objs
      (P.(join) (P.(dirname) output_filename) (dll_name8 ++ dll_extension))
      output_dir libs library_dirs runtime_library_dirs None debug pre'
      extra_postargs build_temp target_lang in
  ((if negb debug then append (length h) (lit "-s") else ret tt) ;;
   objects_now <- content (S (S (length h))) ;;
   libraries_now <- content (S (length h)) ;;
   extra_preargs_now <- content (length h) ;;
   perform reply
     (super_link target objects_now
        (P.(join) (P.(dirname) output_filename)
           (dll_name8 ++ dll_extension))
        output_dir libraries_now library_dirs
        runtime_library_dirs None debug extra_preargs_now
        extra_postargs build_temp target_lang) ;;
   alias_long_name reply dll_name dll_name8 dll_extension
     output_filename)%eff (State (h ++ [pre; libs; objs]) calls)
  = (match reply calls linking with
     | None => OK tt
     | Some e => Raise e
     end,
     State (h ++ [pre'; libs; objs]) (calls ++ [linking])).
Proof.
  intros Hlen pre' linking.
  assert (Hstrip :
    (if negb debug then append (length h) (lit "-s") else ret tt)
      (State (h ++ [pre; libs; objs]) calls)
    = (OK tt, State (h ++ [pre'; libs; objs]) calls)).
  { subst pre'. destruct debug; cbn [negb].
    - unfold ret. rewrite app_nil_r. reflexivity.
    - unfold append, extend. cbn [heap log].
      rewrite copies_lookup_0, copies_insert_0. reflexivity. }
  erewrite bind_ok by exact Hstrip.
  unfold bind at 1, content at 1. cbn [heap].
  rewrite copies_lookup_2. cbn [default from_option id].
  unfold bind at 1, content at 1. cbn [heap].
  rewrite copies_lookup_1. cbn [default from_option id].
  unfold bind at 1, content at 1. cbn [heap].
  rewrite copies_lookup_0. cbn [default from_option id].
  fold linking. unfold bind, perform. cbn [heap log].
  destruct (reply calls linking) as [e|]; [reflexivity|].
  rewrite alias_long_name_short by exact Hlen. reflexivity.
Qed.

Section LinkRuns.

Context (P : os_path) (reply : list call -> call -> option exn).
Context (getenv : str -> option str) (now_strftime : str -> str).
Context (uname_nodename : str) (self : Compiler).
Context (target : target_desc) (objects : option addr).
Context (output_filename : str) (output_dir : option str).
Context (libraries : option addr).
Context (library_dirs runtime_library_dirs : option (list str)).
Context (export_symbols : option (list str)) (debug : bool).
Context (extra_preargs : option addr) (extra_postargs : option (list str)).
Context (build_temp target_lang : option str) (st : state).

(** For a stem of more than 8 characters [link] stops at the name stage,
    with the copies made and nothing else done. *)
Lemma link_long_stem_run :
  (8 < length (fst (P.(splitext) (P.(basename) output_filename))))%nat ->
  outcome
    (link P reply getenv now_strftime uname_nodename self target objects
       output_filename output_dir libraries library_dirs
       runtime_library_dirs export_symbols debug extra_preargs
       extra_postargs build_temp target_lang) st
  = Raise (NameError "reduce")
  /\ trace
       (link P reply getenv now_strftime uname_nodename self target objects
          output_filename output_dir libraries library_dirs
          runtime_library_dirs export_symbols debug extra_preargs
          extra_postargs build_temp target_lang) st
     = [].
Proof.
  intros Hlen. unfold outcome.
  destruct (link_after_prepare P reply getenv now_strftime uname_nodename
              self target objects output_filename output_dir libraries
              library_dirs runtime_library_dirs export_symbols debug
              extra_preargs extra_postargs build_temp target_lang st)
    as (pre & libs & objs & _ & _ & _ & Hlink).
  rewrite (short_name_long P output_filename Hlen) in Hlink.
  split; [rewrite Hlink; reflexivity|].
  apply trace_app. rewrite Hlink. symmetry. apply app_nil_r.
Qed.

(** For a stem of at most 8 characters and arguments that are lists of
    the heap, [link] is the definition-file block followed by the rest,
    run on the heap extended by the three copies. *)
Lemma link_short_stem_start :
  live st.(heap) objects -> live st.(heap) libraries ->
  live st.(heap) extra_preargs ->
  let name := P.(splitext) (P.(basename) output_filename) in
  (length (fst name) <= 8)%nat ->
  let n := length st.(heap) in
  link P reply getenv now_strftime uname_nodename self target objects
    output_filename output_dir libraries library_dirs
    runtime_library_dirs export_symbols debug extra_preargs
    extra_postargs build_temp target_lang st
  = (write_def_file P reply getenv now_strftime uname_nodename self
       target export_symbols (fst name) (fst name) (S (S n)) ;;
     (if negb debug then append n (lit "-s") else ret tt) ;;
     objects_now <- content (S (S n)) ;;
     libraries_now <- content (S n) ;;
     extra_preargs_now <- content n ;;
     perform reply
       (super_link target objects_now
          (P.(join) (P.(dirname) output_filename) (fst name ++ snd name))
          output_dir libraries_now library_dirs
          runtime_library_dirs None debug extra_preargs_now
          extra_postargs build_temp target_lang) ;;
     alias_long_name reply (fst name) (fst name) (snd name)
       output_filename)%eff
      (State (st.(heap)
                ++ [ cell st.(heap) extra_preargs;
                     cell st.(heap) libraries ++ self.(dll_libraries);
                     cell st.(heap) objects ])
         st.(log)).
Proof.
  intros Hobjects Hlibraries Hpre name Hlen n.
  destruct (link_after_prepare P reply getenv now_strftime uname_nodename
              self target objects output_filename output_dir libraries
              library_dirs runtime_library_dirs export_symbols debug
              extra_preargs extra_postargs build_temp target_lang st)
    as (pre & libs & objs & -> & -> & -> & Hlink).
  rewrite !cell_live in Hlink by assumption.
  rewrite (short_name_short P output_filename Hlen) in Hlink.
  exact Hlink.
Qed.

End LinkRuns.

Section LinkShortRuns.

Context (P : os_path) (reply : list call -> call -> option exn).
Context (getenv : str -> option str) (now_strftime : str -> str).
Context (uname_nodename : str) (self : Compiler).
Context (target : target_desc) (objects : option addr).
Context (output_filename : str) (output_dir : option str).
Context (libraries : option addr).
Context (library_dirs runtime_library_dirs : option (list str)).
Context (debug : bool).
Context (extra_preargs : option addr) (extra_postargs : option (list str)).
Context (build_temp target_lang : option str) (st : state).

Context (Hobjects : live st.(heap) objects).
Context (Hlibraries : live st.(heap) libraries).
Context (Hpre : live st.(heap) extra_preargs).
Context (Hlen :
  (length (fst (P.(splitext) (P.(basename) output_filename))) <= 8)%nat).

Local Abbreviation linking :=
  (underlying_link_call P self target output_filename output_dir
     (cell st.(heap) libraries) library_dirs runtime_library_dirs debug
     (cell st.(heap) extra_preargs) extra_postargs build_temp target_lang).

Lemma link_skipped_run (export_symbols : option (list str)) :
  target = EXECUTABLE \/ export_symbols = None ->
  let whole :=
    link P reply getenv now_strftime uname_nodename self target objects
      output_filename output_dir libraries library_dirs
      runtime_library_dirs export_symbols debug extra_preargs
      extra_postargs build_temp target_lang in
  trace whole st = [linking (cell st.(heap) objects)]
  /\ outcome whole st
     = match reply st.(log) (linking (cell st.(heap) objects)) with
       | None => OK tt
       | Some e => Raise e
       end.
Proof.
  intros Hskip whole. subst whole.
  split; [apply trace_app|unfold outcome];
    rewrite (link_short_stem_start P reply getenv now_strftime
               uname_nodename self target objects output_filename output_dir
               libraries library_dirs runtime_library_dirs export_symbols
               debug extra_preargs extra_postargs build_temp target_lang st
               Hobjects Hlibraries Hpre Hlen);
    (erewrite bind_ok by (apply write_def_file_skipped; exact Hskip));
    rewrite link_tail_run by exact Hlen; reflexivity.
Qed.

Lemma link_no_object_run (symbols : list str) :
  target <> EXECUTABLE ->
  cell st.(heap) objects = [] ->
  let whole :=
    link P reply getenv now_strftime uname_nodename self target objects
      output_filename output_dir libraries library_dirs
      runtime_library_dirs (Some symbols) debug extra_preargs
      extra_postargs build_temp target_lang in
  trace whole st = [] /\ outcome whole st = Raise IndexError.
Proof.
  intros Htarget Hempty whole. subst whole.
  split; [apply trace_app|unfold outcome];
    rewrite (link_short_stem_start P reply getenv now_strftime
               uname_nodename self target objects output_filename output_dir
               libraries library_dirs runtime_library_dirs (Some symbols)
               debug extra_preargs extra_postargs build_temp target_lang st
               Hobjects Hlibraries Hpre Hlen);
    (erewrite bind_raise;
     [|apply write_def_file_no_object; [exact Htarget|];
       cbn [heap]; rewrite copies_lookup_2, Hempty; reflexivity]);
    [symmetry; apply app_nil_r|reflexivity].
Qed.

Lemma link_def_file_run (symbols : list str) (first_object : str)
    (rest : list str) :
  target <> EXECUTABLE ->
  cell st.(heap) objects = first_object :: rest ->
  let whole :=
    link P reply getenv now_strftime uname_nodename self target objects
      output_filename output_dir libraries library_dirs
      runtime_library_dirs (Some symbols) debug extra_preargs
      extra_postargs build_temp target_lang in
  let stem := fst (P.(splitext) (P.(basename) output_filename)) in
  let def_file :=
    P.(join) (P.(dirname) first_object) (stem ++ lit ".def") in
  let vendor :=
    match getenv (lit "VENDOR") with
    | Some (c :: v) => c :: v
    | _ => lit "python build system"
    end in
  let version :=
    match self.(version) with
    | Some (c :: v) => c :: v
    | _ => lit "0.0"
    end in
  let written :=
    execute_write_file def_file
      (def_file_contents vendor version
         (now_strftime (lit "%d %b %Y %H:%M:%S")) uname_nodename
         stem stem symbols)
      (lit "writing " ++ def_file) in
  let linked := (first_object :: rest) ++ [def_file] in
  match reply st.(log) written with
  | Some e => trace whole st = [written] /\ outcome whole st = Raise e
  | None =>
      trace whole st = [written; linking linked]
      /\ outcome whole st
         = match reply (st.(log) ++ [written]) (linking linked) with
           | None => OK tt
           | Some e => Raise e
           end
  end.
Proof.
  intros Htarget Hfirst whole stem def_file vendor version' written linked.
  assert (Hrun :
    whole st
    = match reply st.(log) written with
      | Some e =>
          (Raise e,
           State (st.(heap)
                    ++ [ cell st.(heap) extra_preargs;
                         cell st.(heap) libraries ++ self.(dll_libraries);
                         first_object :: rest ])
             (st.(log) ++ [written]))
      | None =>
          (match reply (st.(log) ++ [written]) (linking linked) with
           | None => OK tt
           | Some e => Raise e
           end,
           State (st.(heap)
                    ++ [ cell st.(heap) extra_preargs
                           ++ (if debug then [] else [lit "-s"]);
                         cell st.(heap) libraries ++ self.(dll_libraries);
                         linked ])
             ((st.(log) ++ [written]) ++ [linking linked]))
      end).
  { subst whole.
    rewrite (link_short_stem_start P reply getenv now_strftime
               uname_nodename self target objects output_filename output_dir
               libraries library_dirs runtime_library_dirs (Some symbols)
               debug extra_preargs extra_postargs build_temp target_lang st
               Hobjects Hlibraries Hpre Hlen).
    fold stem. unfold bind at 1.
    rewrite (write_def_file_run P reply getenv now_strftime uname_nodename
               self target symbols stem stem _ _ first_object rest Htarget)
      by (cbn [heap]; rewrite copies_lookup_2, Hfirst; reflexivity).
    cbv zeta. fold def_file vendor version' written. cbn [heap log].
    rewrite Hfirst.
    destruct (reply (log st) written) as [e|]; [reflexivity|].
    rewrite copies_insert_2. fold linked.
    rewrite link_tail_run by exact Hlen. reflexivity. }
  unfold outcome.
  destruct (reply (log st) written) as [e|].
  - split; [apply trace_app|]; rewrite Hrun; reflexivity.
  - split; [apply trace_app|]; rewrite Hrun;
      [cbn [snd log]; rewrite <- app_assoc|]; reflexivity.
Qed.

End LinkShortRuns.

(** X12: whatever the platform's [os.path], the outside and the other
    arguments, a call of [link] for an output name whose stem has more
    than 8 characters raises [NameError] for [reduce] and makes no outside
    call: no definition file, no underlying link, no alias. *)
Theorem link_long_stem_stops_at_name_stage (P : os_path)
    (reply : list call -> call -> option exn) (getenv : str -> option str)
    (now_strftime : str -> str) (uname_nodename : str) (self : Compiler)
    (target : target_desc) (objects : option addr) (output_filename : str)
    (output_dir : option str) (libraries : option addr)
    (library_dirs runtime_library_dirs : option (list str))
    (export_symbols : option (list str)) (debug : bool)
    (extra_preargs : option addr) (extra_postargs : option (list str))
    (build_temp target_lang : option str) (st : state) :
  (8 < length (fst (P.(splitext) (P.(basename) output_filename))))%nat ->
  let whole :=
    link P reply getenv now_strftime uname_nodename self target objects
      output_filename output_dir libraries library_dirs
      runtime_library_dirs export_symbols debug extra_preargs
      extra_postargs build_temp target_lang in
  outcome whole st = Raise (NameError "reduce") /\ trace whole st = [].
Proof. intros Hlen whole. apply link_long_stem_run. exact Hlen. Qed.

Lemma link_long_stem_stops_at_name_stage_witness :
  (8 < length (fst (Sample.px.(splitext)
                      (Sample.px.(basename) (lit "out/libverylong.dll")))))%nat
  /\ outcome
       (link Sample.px Sample.quiet Sample.no_env Sample.clock Sample.host
          Sample.self EXECUTABLE (Some 0%nat) (lit "out/libverylong.dll")
          None (Some 1%nat) None None None true (Some 2%nat) None None None)
       Sample.st0
     = Raise (NameError "reduce")
  /\ trace
       (link Sample.px Sample.quiet Sample.no_env Sample.clock Sample.host
          Sample.self EXECUTABLE (Some 0%nat) (lit "out/libverylong.dll")
          None (Some 1%nat) None None None true (Some 2%nat) None None None)
       Sample.st0
     = [].
Proof.
  assert (Hlen :
    (8 < length (fst (Sample.px.(splitext)
                        (Sample.px.(basename)
                           (lit "out/libverylong.dll")))))%nat)
    by (vm_compute; lia).
  split; [exact Hlen|].
  exact (link_long_stem_stops_at_name_stage Sample.px Sample.quiet
           Sample.no_env Sample.clock Sample.host Sample.self EXECUTABLE
           (Some 0%nat) (lit "out/libverylong.dll") None (Some 1%nat) None
           None None true (Some 2%nat) None None None Sample.st0 Hlen).
Defined.

(** X13: for a stem of at most 8 characters, and an executable or no
    export list, [link] makes exactly one outside call, the underlying
    link step: on the caller's objects, for the output path rebuilt from
    directory, stem and extension, with the implicit libraries after the
    caller's, without export symbols, and with [-s] after the caller's
    pre-arguments unless [debug] is set.  [link] returns when that step
    returns, and fails with its exception, unchanged, when it fails. *)
Theorem link_without_def_file_run (P : os_path)
    (reply : list call -> call -> option exn) (getenv : str -> option str)
    (now_strftime : str -> str) (uname_nodename : str) (self : Compiler)
    (target : target_desc) (objects : option addr) (output_filename : str)
    (output_dir : option str) (libraries : option addr)
    (library_dirs runtime_library_dirs : option (list str))
    (export_symbols : option (list str)) (debug : bool)
    (extra_preargs : option addr) (extra_postargs : option (list str))
    (build_temp target_lang : option str) (st : state) :
  live st.(heap) objects -> live st.(heap) libraries ->
  live st.(heap) extra_preargs ->
  (length (fst (P.(splitext) (P.(basename) output_filename))) <= 8)%nat ->
  target = EXECUTABLE \/ export_symbols = None ->
  let whole :=
    link P reply getenv now_strftime uname_nodename self target objects
      output_filename output_dir libraries library_dirs
      runtime_library_dirs export_symbols debug extra_preargs
      extra_postargs build_temp target_lang in
  let name := P.(splitext) (P.(basename) output_filename) in
  let linking :=
    super_link target (cell st.(heap) objects)
      (P.(join) (P.(dirname) output_filename) (fst name ++ snd name))
      output_dir (cell st.(heap) libraries ++ self.(dll_libraries))
      library_dirs runtime_library_dirs None debug
      (cell st.(heap) extra_preargs ++ (if debug then [] else [lit "-s"]))
      extra_postargs build_temp target_lang in
  trace whole st = [linking]
  /\ outcome whole st
     = match reply st.(log) linking with
       | None => OK tt
       | Some e => Raise e
       end.
Proof.
  intros Hobjects Hlibraries Hpre Hlen Hskip whole name linking.
  apply link_skipped_run; assumption.
Qed.

(** X14: for a stem of at most 8 characters, an export list, a target
    that is not an executable and at least one object, [link] first writes
    the definition file.  If that fails, [link] fails with the same
    exception and the underlying link step is not run.  If it returns, the
    underlying link step is run, once, on the caller's objects followed by
    the definition file, with the same libraries, pre-arguments and output
    path as without exports, and its outcome is the outcome of [link]. *)
Theorem link_with_def_file_run (P : os_path)
    (reply : list call -> call -> option exn) (getenv : str -> option str)
    (now_strftime : str -> str) (uname_nodename : str) (self : Compiler)
    (target : target_desc) (objects : option addr) (output_filename : str)
    (output_dir : option str) (libraries : option addr)
    (library_dirs runtime_library_dirs : option (list str))
    (symbols : list str) (debug : bool)
    (extra_preargs : option addr) (extra_postargs : option (list str))
    (build_temp target_lang : option str) (st : state)
    (first_object : str) (rest : list str) :
  live st.(heap) objects -> live st.(heap) libraries ->
  live st.(heap) extra_preargs ->
  (length (fst (P.(splitext) (P.(basename) output_filename))) <= 8)%nat ->
  target <> EXECUTABLE ->
  cell st.(heap) objects = first_object :: rest ->
  let whole :=
    link P reply getenv now_strftime uname_nodename self target objects
      output_filename output_dir libraries library_dirs
      runtime_library_dirs (Some symbols) debug extra_preargs
      extra_postargs build_temp target_lang in
  let name := P.(splitext) (P.(basename) output_filename) in
  let def_file :=
    P.(join) (P.(dirname) first_object) (fst name ++ lit ".def") in
  let vendor :=
    match getenv (lit "VENDOR") with
    | Some (c :: v) => c :: v
    | _ => lit "python build system"
    end in
  let version :=
    match self.(version) with
    | Some (c :: v) => c :: v
    | _ => lit "0.0"
    end in
  let written :=
    execute_write_file def_file
      (def_file_contents vendor version
         (now_strftime (lit "%d %b %Y %H:%M:%S")) uname_nodename
         (fst name) (fst name) symbols)
      (lit "writing " ++ def_file) in
  let linking :=
    super_link target ((first_object :: rest) ++ [def_file])
      (P.(join) (P.(dirname) output_filename) (fst name ++ snd name))
      output_dir (cell st.(heap) libraries ++ self.(dll_libraries))
      library_dirs runtime_library_dirs None debug
      (cell st.(heap) extra_preargs ++ (if debug then [] else [lit "-s"]))
      extra_postargs build_temp target_lang in
  match reply st.(log) written with
  | Some e => trace whole st = [written] /\ outcome whole st = Raise e
  | None =>
      trace whole st = [written; linking]
      /\ outcome whole st
         = match reply (st.(log) ++ [written]) linking with
           | None => OK tt
           | Some e => Raise e
           end
  end.
Proof.
  intros Hobjects Hlibraries Hpre Hlen Htarget Hfirst.
  apply link_def_file_run; assumption.
Qed.

Lemma link_underlying_call_shape (P : os_path)
    (reply : list call -> call -> option exn) (getenv : str -> option str)
    (now_strftime : str -> str) (uname_nodename : str) (self : Compiler)
    (target : target_desc) (objects : option addr) (output_filename : str)
    (output_dir : option str) (libraries : option addr)
    (library_dirs runtime_library_dirs : option (list str))
    (export_symbols : option (list str)) (debug : bool)
    (extra_preargs : option addr) (extra_postargs : option (list str))
    (build_temp target_lang : option str) (st : state) :
  live st.(heap) objects -> live st.(heap) libraries ->
  live st.(heap) extra_preargs ->
  let name := P.(splitext) (P.(basename) output_filename) in
  Forall
    (fun c =>
       match c with
       | super_link target' _ output' output_dir' libraries' library_dirs'
           runtime_library_dirs' exports' debug' preargs' postargs'
           build_temp' target_lang' =>
           target' = target
           /\ output'
              = P.(join) (P.(dirname) output_filename)
                  (fst name ++ snd name)
           /\ output_dir' = output_dir
           /\ libraries' = cell st.(heap) libraries ++ self.(dll_libraries)
           /\ library_dirs' = library_dirs
           /\ runtime_library_dirs' = runtime_library_dirs
           /\ exports' = None
           /\ debug' = debug
           /\ preargs'
              = cell st.(heap) extra_preargs
                  ++ (if debug then [] else [lit "-s"])
           /\ postargs' = extra_postargs
           /\ build_temp' = build_temp
           /\ target_lang' = target_lang
       | _ => True
       end)
    (trace
       (link P reply getenv now_strftime uname_nodename self target objects
          output_filename output_dir libraries library_dirs
          runtime_library_dirs export_symbols debug extra_preargs
          extra_postargs build_temp target_lang) st).
Proof.
  intros Hobjects Hlibraries Hpre name.
  destruct (Nat.le_gt_cases (length (fst name)) 8) as [Hlen|Hlen].
  2:{ rewrite (proj2 (link_long_stem_run P reply getenv now_strftime
                        uname_nodename self target objects output_filename
                        output_dir libraries library_dirs
                        runtime_library_dirs export_symbols debug
                        extra_preargs extra_postargs build_temp target_lang
                        st Hlen)).
      constructor. }
  assert (Hcases :
    (target = EXECUTABLE \/ export_symbols = None)
    \/ (target <> EXECUTABLE /\ exists symbols, export_symbols = Some symbols)).
  { destruct export_symbols as [symbols|]; [|left; right; reflexivity].
    destruct target; [left; left; reflexivity|right|right];
      (split; [discriminate|eauto]). }
  destruct Hcases as [Hskip|(Htarget & symbols & ->)].
  { rewrite (proj1 (link_skipped_run P reply getenv now_strftime
                      uname_nodename self target objects output_filename
                      output_dir libraries library_dirs runtime_library_dirs
                      debug extra_preargs extra_postargs build_temp
                      target_lang st Hobjects Hlibraries Hpre Hlen
                      export_symbols Hskip)).
    constructor; [|constructor]. repeat split. }
  destruct (cell st.(heap) objects) as [|first_object rest] eqn:Hcell.
  - rewrite (proj1 (link_no_object_run P reply getenv now_strftime
                      uname_nodename self target objects output_filename
                      output_dir libraries library_dirs runtime_library_dirs
                      debug extra_preargs extra_postargs build_temp
                      target_lang st Hobjects Hlibraries Hpre Hlen symbols
                      Htarget Hcell)).
    constructor.
  - pose proof (link_def_file_run P reply getenv now_strftime
                  uname_nodename self target objects output_filename
                  output_dir libraries library_dirs runtime_library_dirs
                  debug extra_preargs extra_postargs build_temp target_lang
                  st Hobjects Hlibraries Hpre Hlen symbols first_object rest
                  Htarget Hcell) as Hrun.
    cbv zeta in Hrun.
    destruct (reply (log st) _) as [e|]; destruct Hrun as [-> _].
    + constructor; [exact I|constructor].
    + constructor; [exact I|]. constructor; [|constructor]. repeat split.
Qed.

(** X15: in every run of [link] on lists of the heap, whatever the
    stem, the target and the exports, a call of the underlying link step
    carries the caller's target, output directory, library directories,
    post-arguments, build directory and language unchanged, the output
    path rebuilt from directory, stem and extension, the caller's
    libraries followed by the implicit ones, the caller's pre-arguments
    followed by [-s] unless [debug] is set, and never the export
    symbols. *)
Theorem link_underlying_call_arguments (P : os_path)
    (reply : list call -> call -> option exn) (getenv : str -> option str)
    (now_strftime : str -> str) (uname_nodename : str) (self : Compiler)
    (target : target_desc) (objects : option addr) (output_filename : str)
    (output_dir : option str) (libraries : option addr)
    (library_dirs runtime_library_dirs : option (list str))
    (export_symbols : option (list str)) (debug : bool)
    (extra_preargs : option addr) (extra_postargs : option (list str))
    (build_temp target_lang : option str) (st : state) :
  live st.(heap) objects -> live st.(heap) libraries ->
  live st.(heap) extra_preargs ->
  let name := P.(splitext) (P.(basename) output_filename) in
  Forall
    (fun c =>
       match c with
       | super_link target' _ output' output_dir' libraries' library_dirs'
           runtime_library_dirs' exports' debug' preargs' postargs'
           build_temp' target_lang' =>
           target' = target
           /\ output'
              = P.(join) (P.(dirname) output_filename)
                  (fst name ++ snd name)
           /\ output_dir' = output_dir
           /\ libraries' = cell st.(heap) libraries ++ self.(dll_libraries)
           /\ library_dirs' = library_dirs
           /\ runtime_library_dirs' = runtime_library_dirs
           /\ exports' = None
           /\ debug' = debug
           /\ preargs'
              = cell st.(heap) extra_preargs
                  ++ (if debug then [] else [lit "-s"])
           /\ postargs' = extra_postargs
           /\ build_temp' = build_temp
           /\ target_lang' = target_lang
       | _ => True
       end)
    (trace
       (link P reply getenv now_strftime uname_nodename self target objects
          output_filename output_dir libraries library_dirs
          runtime_library_dirs export_symbols debug extra_preargs
          extra_postargs build_temp target_lang) st).
Proof. apply link_underlying_call_shape. Qed.

(** X16: when the platform's [os.path] puts the output name back
    together (directory joined to basename, and stem followed by
    extension), the underlying link step, whenever [link] runs it (which
    it does for stems of at most 8 characters only), writes at the very
    path the caller asked for. *)
Theorem link_short_stem_links_requested_path (P : os_path)
    (reply : list call -> call -> option exn) (getenv : str -> option str)
    (now_strftime : str -> str) (uname_nodename : str) (self : Compiler)
    (target : target_desc) (objects : option addr) (output_filename : str)
    (output_dir : option str) (libraries : option addr)
    (library_dirs runtime_library_dirs : option (list str))
    (export_symbols : option (list str)) (debug : bool)
    (extra_preargs : option addr) (extra_postargs : option (list str))
    (build_temp target_lang : option str) (st : state) :
  live st.(heap) objects -> live st.(heap) libraries ->
  live st.(heap) extra_preargs ->
  P.(join) (P.(dirname) output_filename) (P.(basename) output_filename)
  = output_filename ->
  fst (P.(splitext) (P.(basename) output_filename))
    ++ snd (P.(splitext) (P.(basename) output_filename))
  = P.(basename) output_filename ->
  Forall
    (fun c =>
       match c with
       | super_link _ _ output' _ _ _ _ _ _ _ _ _ _ =>
           output' = output_filename
       | _ => True
       end)
    (trace
       (link P reply getenv now_strftime uname_nodename self target objects
          output_filename output_dir libraries library_dirs
          runtime_library_dirs export_symbols debug extra_preargs
          extra_postargs build_temp target_lang) st).
Proof.
  intros Hobjects Hlibraries Hpre Hjoin Hext.
  eapply Forall_impl.
  - apply (link_underlying_call_shape P reply getenv now_strftime
             uname_nodename self target objects output_filename output_dir
             libraries library_dirs runtime_library_dirs export_symbols
             debug extra_preargs extra_postargs build_temp target_lang st);
      assumption.
  - intros c Hc. destruct c; try exact I. cbv zeta in Hc.
    destruct Hc as (_ & -> & _). rewrite Hext. exact Hjoin.
Qed.

(** ** Concrete runs of the further properties *)

Lemma object_filenames_maps_each_source_witness :
  Forall
    (fun src_name =>
       snd (Sample.px.(splitext) src_name)
         ∈ Sample.self.(src_extensions) ++ _rc_extensions)
    [lit "widget.RC"; lit "/src/main.c"]
  /\ object_filenames Sample.px Sample.self
       [lit "widget.RC"; lit "/src/main.c"] false (Some (lit "build"))
     = OK [lit "build/widget.res"; lit "build/src/main.o"].
Proof.
  assert (Hall :
    Forall
      (fun src_name =>
         snd (Sample.px.(splitext) src_name)
           ∈ Sample.self.(src_extensions) ++ _rc_extensions)
      [lit "widget.RC"; lit "/src/main.c"]).
  { repeat constructor;
      apply (bool_decide_eq_true_1 _); vm_compute; reflexivity. }
  split; [exact Hall|].
  exact (object_filenames_maps_each_source Sample.px Sample.self
           [lit "widget.RC"; lit "/src/main.c"] false (Some (lit "build"))
           Hall).
Defined.

Lemma link_without_def_file_run_witness :
  live Sample.st0.(heap) (Some 0%nat)
  /\ live Sample.st0.(heap) (Some 1%nat)
  /\ live Sample.st0.(heap) (Some 2%nat)
  /\ (length (fst (Sample.px.(splitext)
                     (Sample.px.(basename) (lit "out/short.exe")))) <= 8)%nat
  /\ (EXECUTABLE = EXECUTABLE \/ Some [lit "init"] = None)
  /\ trace
       (link Sample.px Sample.quiet Sample.no_env Sample.clock Sample.host
          Sample.self EXECUTABLE (Some 0%nat) (lit "out/short.exe") None
          (Some 1%nat) None None (Some [lit "init"]) false (Some 2%nat)
          None None None)
       Sample.st0
     = [ super_link EXECUTABLE [lit "build/a.o"; lit "build/b.o"]
           (lit "out/short.exe") None [lit "m"; lit "gcc"] None None None
           false [lit "-g"; lit "-s"] None None None ].
Proof.
  assert (H0 : live Sample.st0.(heap) (Some 0%nat)) by (simpl; lia).
  assert (H1 : live Sample.st0.(heap) (Some 1%nat)) by (simpl; lia).
  assert (H2 : live Sample.st0.(heap) (Some 2%nat)) by (simpl; lia).
  assert (Hlen :
    (length (fst (Sample.px.(splitext)
                    (Sample.px.(basename) (lit "out/short.exe")))) <= 8)%nat)
    by (vm_compute; lia).
  assert (Hskip : EXECUTABLE = EXECUTABLE \/ Some [lit "init"] = None)
    by (left; reflexivity).
  repeat (split; [assumption|]).
  exact (proj1 (link_without_def_file_run Sample.px Sample.quiet
                  Sample.no_env Sample.clock Sample.host Sample.self
                  EXECUTABLE (Some 0%nat) (lit "out/short.exe") None
                  (Some 1%nat) None None (Some [lit "init"]) false
                  (Some 2%nat) None None None Sample.st0
                  H0 H1 H2 Hlen Hskip)).
Defined.

Lemma link_with_def_file_run_witness :
  live Sample.st0.(heap) (Some 0%nat)
  /\ live Sample.st0.(heap) (Some 1%nat)
  /\ live Sample.st0.(heap) (Some 2%nat)
  /\ (length (fst (Sample.px.(splitext)
                     (Sample.px.(basename) (lit "out/short.dll")))) <= 8)%nat
  /\ SHARED_LIBRARY <> EXECUTABLE
  /\ cell Sample.st0.(heap) (Some 0%nat)
     = lit "build/a.o" :: [lit "build/b.o"]
  /\ outcome
       (link Sample.px Sample.quiet Sample.no_env Sample.clock Sample.host
          Sample.self SHARED_LIBRARY (Some 0%nat) (lit "out/short.dll") None
          (Some 1%nat) None None (Some [lit "init"]) true (Some 2%nat)
          None None None)
       Sample.st0
     = OK tt.
Proof.
  assert (H0 : live Sample.st0.(heap) (Some 0%nat)) by (simpl; lia).
  assert (H1 : live Sample.st0.(heap) (Some 1%nat)) by (simpl; lia).
  assert (H2 : live Sample.st0.(heap) (Some 2%nat)) by (simpl; lia).
  assert (Hlen :
    (length (fst (Sample.px.(splitext)
                    (Sample.px.(basename) (lit "out/short.dll")))) <= 8)%nat)
    by (vm_compute; lia).
  assert (Htarget : SHARED_LIBRARY <> EXECUTABLE) by discriminate.
  assert (Hfirst :
    cell Sample.st0.(heap) (Some 0%nat)
    = lit "build/a.o" :: [lit "build/b.o"]) by reflexivity.
  repeat (split; [assumption|]).
  exact (proj2 (link_with_def_file_run Sample.px Sample.quiet
                  Sample.no_env Sample.clock Sample.host Sample.self
                  SHARED_LIBRARY (Some 0%nat) (lit "out/short.dll") None
                  (Some 1%nat) None None [lit "init"] true (Some 2%nat)
                  None None None Sample.st0 (lit "build/a.o")
                  [lit "build/b.o"] H0 H1 H2 Hlen Htarget Hfirst)).
Defined.

Lemma link_underlying_call_arguments_witness :
  live Sample.st0.(heap) (Some 0%nat)
  /\ live Sample.st0.(heap) (Some 1%nat)
  /\ live Sample.st0.(heap) (Some 2%nat)
  /\ Forall
       (fun c =>
          match c with
          | super_link _ _ _ _ libraries' _ _ exports' _ preargs' _ _ _ =>
              libraries' = [lit "m"; lit "gcc"]
              /\ exports' = None
              /\ preargs' = [lit "-g"; lit "-s"]
          | _ => True
          end)
       (trace
          (link Sample.px Sample.quiet Sample.no_env Sample.clock Sample.host
             Sample.self SHARED_LIBRARY (Some 0%nat) (lit "out/short.dll")
             None (Some 1%nat) None None (Some [lit "init"]) false
             (Some 2%nat) None None None)
          Sample.st0).
Proof.
  assert (H0 : live Sample.st0.(heap) (Some 0%nat)) by (simpl; lia).
  assert (H1 : live Sample.st0.(heap) (Some 1%nat)) by (simpl; lia).
  assert (H2 : live Sample.st0.(heap) (Some 2%nat)) by (simpl; lia).
  repeat (split; [assumption|]).
  eapply Forall_impl.
  - exact (link_underlying_call_arguments Sample.px Sample.quiet
             Sample.no_env Sample.clock Sample.host Sample.self
             SHARED_LIBRARY (Some 0%nat) (lit "out/short.dll") None
             (Some 1%nat) None None (Some [lit "init"]) false (Some 2%nat)
             None None None Sample.st0 H0 H1 H2).
  - intros c Hc. destruct c; try exact I.
    destruct Hc as (_ & _ & _ & Hl & _ & _ & He & _ & Hp & _).
    repeat split; assumption.
Defined.

Lemma link_short_stem_links_requested_path_witness :
  live Sample.st0.(heap) (Some 0%nat)
  /\ live Sample.st0.(heap) (Some 1%nat)
  /\ live Sample.st0.(heap) (Some 2%nat)
  /\ Sample.px.(join) (Sample.px.(dirname) (lit "out/short.dll"))
       (Sample.px.(basename) (lit "out/short.dll"))
     = lit "out/short.dll"
  /\ fst (Sample.px.(splitext) (Sample.px.(basename) (lit "out/short.dll")))
       ++ snd (Sample.px.(splitext)
                 (Sample.px.(basename) (lit "out/short.dll")))
     = Sample.px.(basename) (lit "out/short.dll")
  /\ Forall
       (fun c =>
          match c with
          | super_link _ _ output' _ _ _ _ _ _ _ _ _ _ =>
              output' = lit "out/short.dll"
          | _ => True
          end)
       (trace
          (link Sample.px Sample.quiet Sample.no_env Sample.clock Sample.host
             Sample.self SHARED_LIBRARY (Some 0%nat) (lit "out/short.dll")
             None (Some 1%nat) None None (Some [lit "init"]) false
             (Some 2%nat) None None None)
          Sample.st0).
Proof.
  assert (H0 : live Sample.st0.(heap) (Some 0%nat)) by (simpl; lia).
  assert (H1 : live Sample.st0.(heap) (Some 1%nat)) by (simpl; lia).
  assert (H2 : live Sample.st0.(heap) (Some 2%nat)) by (simpl; lia).
  assert (Hjoin :
    Sample.px.(join) (Sample.px.(dirname) (lit "out/short.dll"))
      (Sample.px.(basename) (lit "out/short.dll"))
    = lit "out/short.dll") by (vm_compute; reflexivity).
  assert (Hext :
    fst (Sample.px.(splitext) (Sample.px.(basename) (lit "out/short.dll")))
      ++ snd (Sample.px.(splitext)
                (Sample.px.(basename) (lit "out/short.dll")))
    = Sample.px.(basename) (lit "out/short.dll")) by (vm_compute; reflexivity).
  repeat (split; [assumption|]).
  exact (link_short_stem_links_requested_path Sample.px Sample.quiet
           Sample.no_env Sample.clock Sample.host Sample.self
           SHARED_LIBRARY (Some 0%nat) (lit "out/short.dll") None
           (Some 1%nat) None None (Some [lit "init"]) false (Some 2%nat)
           None None None Sample.st0 H0 H1 H2 Hjoin Hext).
Defined.

(** ** The removal of the stale long name, seen from [link] *)



